(** * Cohesity Helios integration for Cortex XSOAR: a shallow embedding

    The development follows
    [Packs/CohesityHelios/Integrations/CohesityHelios/CohesityHelios.py].
    Python dictionaries are finite maps, JSON objects decoded from the
    service are records whose fields are optional (a key may be absent),
    a value that may be [None] is an [option],
    exceptions are the left summand of a sum type, and the effects of a
    command (clock reads, object allocation, HTTP requests, the host's
    last-run store and incident sink) are threaded through a state and
    error monad that records them in a trace. *)

From Stdlib Require Import ZArith QArith Qround Ascii String.
From stdpp Require Import gmap strings list fin_maps pretty.

Local Open Scope Z_scope.

(** ** Exceptions and results *)

Inductive exn :=
| KeyError (k : string)
| TypeError (msg : string)
| ValueError (msg : string)
| DemistoException (msg : string).

#[global] Instance exn_eq_dec : EqDecision exn.
Proof. solve_decision. Defined.

(** A computation that may raise: [inl e] is a raised exception. *)
Abbreviation result A := (exn + A)%type.

#[global] Instance result_ret : MRet (sum exn) := fun _ x => inr x.
#[global] Instance result_bind : MBind (sum exn) :=
  fun _ _ f m => match m with inl e => inl e | inr x => f x end.

(** [d[k]] on a decoded JSON object: [KeyError] when the key is absent. *)
Definition getitem {A} (k : string) (o : option A) : result A :=
  match o with
  | Some v => inr v
  | None => inl (KeyError k)
  end.

(** [str(x)] of a value that is a string or [None]. *)
Definition py_str (o : option string) : string :=
  match o with
  | Some s => s
  | None => "None"
  end.

(** ** Data model *)

(** One entry of an alert's [propertyList], a decoded JSON object: either
    key may be absent; a key is a string, and a value is a string or null
    ([None]). *)
Record property := MkProperty { key : option string; value : option (option string) }.

(** The entry [{"key": k, "value": v}] with a string value. *)
Definition Property (k v : string) : property := MkProperty (Some k) (Some (Some v)).

Record alert_document := AlertDocument {
  alertName : option string;
  alertDescription : option string;
  alertCause : option string
}.

(** An alert as decoded from the response of [GET /mcm/alerts]. The code
    reads some keys with [alert.get(..)] and others with [alert[..]], so
    every key is optional here and the subscript is [getitem]. The value
    of [propertyList] is a list of entries or null. *)
Record alert := Alert {
  id : option string;
  alertCode : option string;
  severity : option string;
  alertState : option string;
  latestTimestampUsecs : option Z;
  alertDocument : option alert_document;
  propertyList : option (option (list property))
}.

#[global] Instance property_eq_dec : EqDecision property.
Proof. solve_decision. Defined.
#[global] Instance alert_document_eq_dec : EqDecision alert_document.
Proof. solve_decision. Defined.
#[global] Instance alert_eq_dec : EqDecision alert.
Proof. solve_decision. Defined.

(** [IncidentSeverity] of CommonServerPython. *)
Inductive IncidentSeverity := UNKNOWN | INFO | LOW | MEDIUM | HIGH | CRITICAL.

Module Incident.
Record custom_fields := CustomFieldsOf {
  alert_description : string;
  alert_cause : string;
  anomalous_object : option string;
  environment : option string;
  anomaly_strength : option string
}.

(** [rawJSON] is [json.dumps(alert)]; the serialised text is represented
    by the alert it encodes. *)
Record t := Make {
  name : string;
  type : string;
  event_id : option string;
  occurred : string;
  CustomFields : custom_fields;
  rawJSON : alert;
  severity : IncidentSeverity
}.
End Incident.

Module RestoreRequest.
Record vmware_parameters := VmwareParameters {
  poweredOn : bool;
  prefix : string;
  suffix : string
}.

Record restore_object := RestoreObject {
  jobId : Z;
  jobRunId : Z;
  startedTimeUsecs : Z;
  sourceName : option string;
  protectionSourceId : Z
}.

Record t := Make {
  name : string;
  type : string;
  vmwareParameters : vmware_parameters;
  objects : list restore_object
}.
End RestoreRequest.

(** A Python list object: its identity and its items. Two lists with equal
    items are [==] but are the same object ([is]) only when their
    identities agree. *)
Record pylist := PyList { oid : nat; items : list string }.

(** Values stored in the query parameters of a request. *)
Inductive param :=
| PInt (z : Z)
| PStr (s : string)
| PBool (b : bool)
| PList (l : pylist).

(** Values kept in the host's last-run store. *)
Inductive scalar :=
| SInt (z : Z)
| SStr (s : string).

(** ** Constants *)

Definition DATE_FORMAT : string := "%Y-%m-%dT%H:%M:%SZ".
Definition MAX_FETCH_DEFAULT : Z := 20.

(** ** Builtins *)

Definition digit_of (c : ascii) : option Z :=
  let n := nat_of_ascii c in
  if ((48 <=? n) && (n <=? 57))%nat then Some (Z.of_nat (n - 48)) else None.

Fixpoint digits_value (s : string) (acc : Z) : option Z :=
  match s with
  | EmptyString => Some acc
  | String c s' =>
      match digit_of c with
      | Some d => digits_value s' (10 * acc + d)
      | None => None
      end
  end.

(** [int(s)] on a string: an optional sign followed by decimal digits.
    (Python also accepts surrounding blanks and digit separators; the
    service and the host never produce them.) *)
Definition py_int_of_string (s : string) : result Z :=
  let bad := inl (ValueError ("invalid literal for int() with base 10: " +:+ s)) in
  match s with
  | EmptyString => bad
  | String c s' =>
      if decide (c = "-"%char) then
        match s' with
        | EmptyString => bad
        | _ => from_option (fun z => inr (- z)) bad (digits_value s' 0)
        end
      else if decide (c = "+"%char) then
        match s' with
        | EmptyString => bad
        | _ => from_option inr bad (digits_value s' 0)
        end
      else from_option inr bad (digits_value s 0)
  end.

Definition py_int (v : scalar) : result Z :=
  match v with
  | SInt z => inr z
  | SStr s => py_int_of_string s
  end.

(** [int(v)] on a value that is a string or [None]. *)
Definition py_int_of_value (v : option string) : result Z :=
  match v with
  | Some s => py_int_of_string s
  | None => inl (TypeError ("int() argument must be a string, a bytes-like object or a "
                             +:+ "real number, not 'NoneType'"))
  end.

(** [prefix + v] on a value that is a string or [None]. *)
Definition py_concat (prefix : string) (v : option string) : result string :=
  match v with
  | Some s => inr (prefix +:+ s)
  | None => inl (TypeError "can only concatenate str (not NoneType) to str")
  end.

(** [s.isdigit()] on a string of ASCII characters: non-empty and only
    digits. (Python also counts the digits of other scripts.) *)
Definition isdigit (s : string) : bool :=
  match s with
  | EmptyString => false
  | _ => bool_decide (is_Some (digits_value s 0))
  end.

(** [str(n)] for an integer. *)
Definition str_of_int (n : Z) : string := pretty n.

(** [int(x)] on a float: truncation towards zero. Floats are modelled by
    exact rationals. *)
Definition py_int_of_float (x : Q) : Z := Z.quot (Qnum x) (Zpos (Qden x)).

(** ** Helper functions *)

(** [d.get(k)]: [None] when the key is absent. *)
Definition dict_get (d : gmap string (option string)) (k : string) : option string :=
  default None (d !! k).

(** One turn of the loop of [_get_property_dict], the assignment
    [property_dict[property['key']] = property['value']]: the right-hand
    side is evaluated first. *)
Definition set_property (property_dict : gmap string (option string)) (property : property)
    : result (gmap string (option string)) :=
  v ← getitem "value" (value property);
  k ← getitem "key" (key property);
  mret (<[k := v]> property_dict).

Fixpoint _get_property_dict_loop (property_list : list property)
    (property_dict : gmap string (option string)) : result (gmap string (option string)) :=
  match property_list with
  | [] => inr property_dict
  | property :: rest =>
      property_dict ← set_property property_dict property;
      _get_property_dict_loop rest property_dict
  end.

(** [_get_property_dict]; the argument is what [alert['propertyList']]
    gives, a list or [None], and [None] cannot be iterated. *)
Definition _get_property_dict (property_list : option (list property))
    : result (gmap string (option string)) :=
  match property_list with
  | Some l => _get_property_dict_loop l ∅
  | None => inl (TypeError "'NoneType' object is not iterable")
  end.

(** [convert_to_demisto_severity_int]; the argument is what
    [alert.get('severity')] gives, a string or [None]. *)
Definition severity_table : gmap string IncidentSeverity :=
  {[ "kInfo" := INFO; "kWarning" := LOW; "kCritical" := HIGH ]}.

Definition convert_to_demisto_severity_int (severity : option string) : IncidentSeverity :=
  match severity with
  | Some s => default UNKNOWN (severity_table !! s)
  | None => UNKNOWN
  end.

(** ** Dates and times

    Python floats are modelled by exact rationals: the divisions and
    products of the source are exact here. A timestamp is a number of
    seconds since the epoch, 1970-01-01T00:00:00 UTC. *)

Definition USECS_PER_SEC : Z := 1000000.

(** A naive [datetime] (no zone attached): microseconds of wall-clock time
    counted from 1970-01-01T00:00:00 of the calendar it is read on. *)
Record datetime := DateTime { wall_usecs : Z }.

(** [timedelta(days=n)], in microseconds. *)
Definition timedelta_days (n : Z) : Z := n * 86400 * USECS_PER_SEC.

(** [dt - delta] *)
Definition datetime_minus (dt : datetime) (delta : Z) : datetime :=
  DateTime (wall_usecs dt - delta).

(** Rounding to the nearest integer, ties to even, as [fromtimestamp]
    rounds to microseconds. *)
Definition round_half_even (x : Q) : Z :=
  let f := Qfloor x in
  match Qcompare (x - inject_Z f) (1 # 2) with
  | Lt => f
  | Gt => f + 1
  | Eq => if Z.even f then f else f + 1
  end.

(** Wall-clock bounds of [datetime.min] and [datetime.max]:
    0001-01-01T00:00:00.000000 and 9999-12-31T23:59:59.999999. *)
Definition MIN_WALL_USECS : Z := -62135596800 * USECS_PER_SEC.
Definition MAX_WALL_USECS : Z := 253402300800 * USECS_PER_SEC - 1.

(** The span [fromtimestamp] looks back to detect a repeated hour: one
    day. *)
Definition MAX_FOLD_USECS : Z := 86400 * USECS_PER_SEC.

(** [datetime.fromtimestamp(t)] without a zone argument: the local time of
    the host, whose zone is [utc_offset] seconds east of UTC. The
    function also converts the instant one day earlier, so the local time
    of that instant must lie in the range of [datetime] as well. *)
Definition fromtimestamp (utc_offset : Z) (t : Q) : result datetime :=
  let usecs := round_half_even (t * inject_Z USECS_PER_SEC) in
  let wall := usecs + utc_offset * USECS_PER_SEC in
  if (MIN_WALL_USECS + MAX_FOLD_USECS <=? wall) && (wall <=? MAX_WALL_USECS)
  then inr (DateTime wall)
  else inl (ValueError "year is out of range").

(** [datetime.utcfromtimestamp(t)]: the reading on the UTC calendar. *)
Definition utcfromtimestamp (t : Q) : result datetime := fromtimestamp 0 t.

(** [dt.timestamp()] of a naive datetime, read as local time. *)
Definition timestamp (utc_offset : Z) (dt : datetime) : Q :=
  Qmake (wall_usecs dt - utc_offset * USECS_PER_SEC) 1000000.

(** Days since 1970-01-01 to (year, month, day) of the proleptic Gregorian
    calendar. *)
Definition civil_from_days (days : Z) : Z * Z * Z :=
  let z := days + 719468 in
  let era := z / 146097 in
  let doe := z - era * 146097 in
  let yoe := (doe - doe / 1460 + doe / 36524 - doe / 146096) / 365 in
  let y := yoe + era * 400 in
  let doy := doe - (365 * yoe + yoe / 4 - yoe / 100) in
  let mp := (5 * doy + 2) / 153 in
  let d := doy - (153 * mp + 2) / 5 + 1 in
  let m := if mp <? 10 then mp + 3 else mp - 9 in
  (if m <=? 2 then y + 1 else y, m, d).

Definition digit_char (n : Z) : ascii := ascii_of_nat (48 + Z.to_nat (n mod 10)).

Definition pad2 (n : Z) : string :=
  String (digit_char (n / 10)) (String (digit_char n) EmptyString).

Definition pad4 (n : Z) : string := pad2 (n / 100) +:+ pad2 n.

(** One [strftime] directive; the fields are zero-padded. *)
Definition strftime_directive (dt : datetime) (c : ascii) : string :=
  let secs := wall_usecs dt / USECS_PER_SEC in
  let '(y, m, d) := civil_from_days (secs / 86400) in
  let sod := secs mod 86400 in
  if decide (c = "Y"%char) then pad4 y
  else if decide (c = "m"%char) then pad2 m
  else if decide (c = "d"%char) then pad2 d
  else if decide (c = "H"%char) then pad2 (sod / 3600)
  else if decide (c = "M"%char) then pad2 (sod mod 3600 / 60)
  else if decide (c = "S"%char) then pad2 (sod mod 60)
  else String "%"%char (String c EmptyString).

(** [dt.strftime(fmt)] for the directives above; other characters are
    copied. *)
Fixpoint strftime (dt : datetime) (fmt : string) : string :=
  match fmt with
  | EmptyString => EmptyString
  | String c rest =>
      if decide (c = "%"%char) then
        match rest with
        | EmptyString => String c EmptyString
        | String c' rest' => strftime_directive dt c' +:+ strftime dt rest'
        end
      else String c (strftime dt rest)
  end.

(** [get_date_time_from_millis] *)
Definition get_date_time_from_millis (utc_offset : Z) (time_in_millis : Q) : result datetime :=
  fromtimestamp utc_offset (time_in_millis / 1000).

(** [get_millis_from_date_time] *)
Definition get_millis_from_date_time (utc_offset : Z) (dt : datetime) : Z :=
  py_int_of_float (timestamp utc_offset dt * 1000).

(** ** The host and the remote service *)

(** Requests as [BaseClient._http_request] sends them. *)
Inductive request :=
| GET (url_suffix : string) (params : gmap string param)
| PATCH (url_suffix : string) (json_data : gmap string string)
| POST (url_suffix : string) (headers : gmap string (option string))
       (json_data : RestoreRequest.t).

(** What a command does to the outside world, in order. *)
Inductive event :=
| Http (r : request)
| SetLastRun (obj : gmap string scalar)
| PushIncidents (incidents : list Incident.t).

(** The client object: its headers (a header may be [None]) and the
    answers of the Helios service to the three kinds of request, each an
    exception ([DemistoException] once the retries of [_http_request] are
    used up) or the decoded body. *)
Record Client := MkClient {
  _headers : gmap string (option string);
  alerts_api : gmap string param -> result (list alert);
  patch_api : string -> gmap string string -> result unit;
  recover_api : gmap string (option string) -> RestoreRequest.t -> result unit
}.

(** The machine the integration runs on: the zone of its local time (one
    offset from UTC, without daylight-saving changes), what
    its clock shows at the n-th read (microseconds since the epoch), and
    the instance parameters [demisto.params()]. *)
Record host := Host {
  utc_offset : Z;
  clock : nat -> Z;
  demisto_params : gmap string string
}.

(** The mutable part: the next fresh object identity, the number of clock
    reads so far, the host's last-run store and the trace of effects. *)
Record state := State {
  next_oid : nat;
  clock_reads : nat;
  last_run_store : gmap string scalar;
  trace : list event
}.

(** Commands: state passing with exceptions. The state reached when an
    exception is raised is kept, as in Python. *)
Definition M (A : Type) : Type := state -> result A * state.

#[global] Instance M_ret : MRet M := fun _ x st => (inr x, st).
#[global] Instance M_bind : MBind M := fun _ _ f m st =>
  match m st with
  | (inl e, st') => (inl e, st')
  | (inr x, st') => f x st'
  end.

Definition raise {A} (e : exn) : M A := fun st => (inl e, st).

(** A computation without effects run inside a command. *)
Definition lift {A} (r : result A) : M A := fun st => (r, st).

Definition emit (e : event) : M unit := fun st =>
  (inr tt, State (next_oid st) (clock_reads st) (last_run_store st) (trace st ++ [e])).

(** Evaluating the list display [[]]: a new, empty list object, distinct
    from every object allocated before. *)
Definition new_list : M pylist := fun st =>
  (inr (PyList (next_oid st) []),
   State (S (next_oid st)) (clock_reads st) (last_run_store st) (trace st)).

(** [a is not b] on list objects. *)
Definition is_not (a b : pylist) : bool := negb (oid a =? oid b)%nat.

Section Integration.
Context (h : host).

(** [datetime.now()]: a clock read, shown on the local calendar. *)
Definition datetime_now : M datetime := fun st =>
  (inr (DateTime (clock h (clock_reads st) + utc_offset h * USECS_PER_SEC)),
   State (next_oid st) (S (clock_reads st)) (last_run_store st) (trace st)).

(** [get_current_millis] *)
Definition get_current_millis : M Z :=
  dt ← datetime_now;
  mret (py_int_of_float (timestamp (utc_offset h) dt * 1000)).

(** [demisto.getLastRun()], [demisto.setLastRun(obj)] and
    [demisto.incidents(incidents)] *)
Definition getLastRun : M (gmap string scalar) := fun st => (inr (last_run_store st), st).

Definition setLastRun (obj : gmap string scalar) : M unit := fun st =>
  (inr tt, State (next_oid st) (clock_reads st) obj (trace st ++ [SetLastRun obj])).

Definition demisto_incidents (incidents : list Incident.t) : M unit :=
  emit (PushIncidents incidents).

(** ** Client class *)

(** [self._http_request]: the request is recorded, then the service
    answers. *)
Definition _http_request {A} (r : request) (answer : result A) : M A :=
  _ ← emit (Http r); lift answer.

(** The five default arguments [[]] of [get_ransomware_alerts] are
    evaluated once, when the function is defined: five list objects that
    every call without the argument shares. *)
Definition default_alert_ids : pylist := PyList 0 [].
Definition default_alert_state_list : pylist := PyList 1 [].
Definition default_alert_severity_list : pylist := PyList 2 [].
Definition default_region_ids : pylist := PyList 3 [].
Definition default_cluster_ids : pylist := PyList 4 [].

(** The number of list objects that exist once the module is loaded. *)
Definition MODULE_OBJECTS : nat := 5.

(** The loop that keeps the ransomware alerts of a response. *)
Fixpoint filter_ransomware_alerts (resp ransomware_alerts : list alert) : result (list alert) :=
  match resp with
  | [] => inr ransomware_alerts
  | alert :: resp' =>
      code ← getitem "alertCode" (alertCode alert);
      if decide (code = "CE01516011")
      then filter_ransomware_alerts resp' (ransomware_alerts ++ [alert])
      else filter_ransomware_alerts resp' ransomware_alerts
  end.

(** One statement [if x is not []: request_params[k] = x]. The guard
    compares [x] with a list made for the comparison. *)
Definition set_if_is_not_empty_display (k : string) (x : pylist)
    (request_params : gmap string param) : M (gmap string param) :=
  fresh ← new_list;
  mret (if is_not x fresh then <[k := PList x]> request_params else request_params).

(** The request parameters [get_ransomware_alerts] prepares. *)
Definition prepare_request_params (start_time_millis end_time_millis : option Z)
    (max_fetch : param)
    (alert_ids alert_state_list alert_severity_list region_ids cluster_ids : pylist)
    : M (gmap string param) :=
  let request_params : gmap string param :=
    {[ "maxAlerts" := max_fetch;
       "alertCategoryList" := PStr "kSecurity";
       "alertStateList" := PStr "kOpen";
       "_includeTenantInfo" := PBool true ]} in
  let request_params :=
    match start_time_millis with
    | Some t => <["startDateUsecs" := PInt (t * 1000)]> request_params
    | None => request_params
    end in
  let request_params :=
    match end_time_millis with
    | Some t => <["endDateUsecs" := PInt (t * 1000)]> request_params
    | None => request_params
    end in
  request_params ← set_if_is_not_empty_display "alertIdList" alert_ids request_params;
  request_params ← set_if_is_not_empty_display "alertStateList" alert_state_list
                     request_params;
  request_params ← set_if_is_not_empty_display "alertSeverityList" alert_severity_list
                     request_params;
  request_params ← set_if_is_not_empty_display "region_ids" region_ids request_params;
  request_params ← set_if_is_not_empty_display "clusterIdentifiers" cluster_ids
                     request_params;
  mret request_params.

(** [Client.get_ransomware_alerts] *)
Definition get_ransomware_alerts (self : Client)
    (start_time_millis end_time_millis : option Z) (max_fetch : param)
    (alert_ids alert_state_list alert_severity_list region_ids cluster_ids : pylist)
    : M (list alert) :=
  request_params ← prepare_request_params start_time_millis end_time_millis max_fetch
    alert_ids alert_state_list alert_severity_list region_ids cluster_ids;
  resp ← _http_request (GET "/mcm/alerts" request_params) (alerts_api self request_params);
  lift (filter_ransomware_alerts resp []).

(** [client.get_ransomware_alerts()] with every argument left out. *)
Definition get_ransomware_alerts_default (self : Client) : M (list alert) :=
  get_ransomware_alerts self None None (PInt MAX_FETCH_DEFAULT)
    default_alert_ids default_alert_state_list default_alert_severity_list
    default_region_ids default_cluster_ids.

(** ['/mcm/alerts/' + alert_id]: concatenation fails on [None]. *)
Definition alert_url (alert_id : option string) : result string :=
  py_concat "/mcm/alerts/" alert_id.

(** [Client.suppress_ransomware_alert_by_id] *)
Definition suppress_ransomware_alert_by_id (self : Client) (alert_id : option string) : M unit :=
  url_suffix ← lift (alert_url alert_id);
  let json_data : gmap string string := {[ "status" := "kSuppressed" ]} in
  _http_request (PATCH url_suffix json_data) (patch_api self url_suffix json_data).

(** [Client.resolve_ransomware_alert_by_id] *)
Definition resolve_ransomware_alert_by_id (self : Client) (alert_id : option string) : M unit :=
  url_suffix ← lift (alert_url alert_id);
  let json_data : gmap string string := {[ "status" := "kResolved" ]} in
  _http_request (PATCH url_suffix json_data) (patch_api self url_suffix json_data).

(** [Client.restore_vm_object] *)
Definition restore_vm_object (self : Client) (cluster_id : option string)
    (payload : RestoreRequest.t) : M unit :=
  let client_headers := <["clusterid" := cluster_id]> (_headers self) in
  _http_request (POST "/irisservices/api/v1/public/restore/recover" client_headers payload)
                (recover_api self client_headers payload).

(** ** Incident mapping *)

(** [create_ransomware_incident] *)
Definition create_ransomware_incident (alert : alert) : result Incident.t :=
  property_list ← getitem "propertyList" (propertyList alert);
  property_dict ← _get_property_dict property_list;
  let usecs : Z := default 0 (latestTimestampUsecs alert) in
  let incidence_millis : Q := (inject_Z usecs / 1000)%Q in
  dt ← get_date_time_from_millis (utc_offset h) incidence_millis;
  let occurance_time := strftime dt DATE_FORMAT in
  doc ← getitem "alertDocument" (alertDocument alert);
  name ← getitem "alertName" (alertName doc);
  description ← getitem "alertDescription" (alertDescription doc);
  cause ← getitem "alertCause" (alertCause doc);
  mret (Incident.Make
          name
          "Cohesity-Helios-Ransomware-Incident"
          (id alert)
          occurance_time
          (Incident.CustomFieldsOf description cause
             (dict_get property_dict "object")
             (dict_get property_dict "environment")
             (dict_get property_dict "anomalyStrength"))
          alert
          (convert_to_demisto_severity_int (severity alert))).

(** The loop of [fetch_incidents_command] that maps the alerts. *)
Fixpoint create_incidents (ransomware_resp : list alert) (incidents : list Incident.t)
    : result (list Incident.t) :=
  match ransomware_resp with
  | [] => inr incidents
  | alert :: rest =>
      incident ← create_ransomware_incident alert;
      create_incidents rest (incidents ++ [incident])
  end.

(** ** Commands

    The [demisto.debug] lines of the commands only write to the log and
    are left out. *)

(** [property_dict.get('object', "") == object_name], where [object_name]
    is [args.get('object_name')]: both sides are a string or [None]. *)
Definition eq_object_name (property_dict : gmap string (option string))
    (object_name : option string) : bool :=
  bool_decide (default (Some "") (property_dict !! "object") = object_name).

(** The search loop of [ignore_ransomware_anomaly_command]; the result is
    the final value of [alert_id]. *)
Fixpoint ignore_search (resp : list alert) (object_name : option string)
    (alert_id : option string) : result (option string) :=
  match resp with
  | [] => inr alert_id
  | alert :: resp' =>
      property_list ← getitem "propertyList" (propertyList alert);
      property_dict ← _get_property_dict property_list;
      if eq_object_name property_dict object_name
      then inr (id alert)
      else ignore_search resp' object_name alert_id
  end.

(** [ignore_ransomware_anomaly_command] *)
Definition ignore_ransomware_anomaly_command (client : Client) (args : gmap string string)
    : M string :=
  let object_name := args !! "object_name" in
  resp ← get_ransomware_alerts_default client;
  alert_id ← lift (ignore_search resp object_name (Some ""));
  if decide (alert_id = Some "") then
    raise (ValueError ("CohesityHelios error: no anomalous object found by the given name: "
                         +:+ py_str object_name +:+ ". "))
  else
    _ ← suppress_ransomware_alert_by_id client alert_id;
    mret ("Ignored object " +:+ py_str object_name +:+ ".").

(** The search loop of [restore_latest_clean_snapshot]; the result is the
    final value of [alert_id] and of [restore_properties]. *)
Fixpoint restore_search (resp : list alert) (object_name : option string)
    (alert_id : string) (restore_properties : gmap string (option string))
    : result (string * gmap string (option string)) :=
  match resp with
  | [] => inr (alert_id, restore_properties)
  | alert :: resp' =>
      sev ← getitem "severity" (severity alert);
      critical_open ←
        (if decide (sev = "kCritical")
         then state ← getitem "alertState" (alertState alert);
              mret (bool_decide (state = "kOpen"))
         else mret false);
      if critical_open : bool then
        property_list ← getitem "propertyList" (propertyList alert);
        restore_properties ← _get_property_dict property_list;
        if eq_object_name restore_properties object_name
        then alert_id ← getitem "id" (id alert);
             mret (alert_id, restore_properties)
        else restore_search resp' object_name alert_id restore_properties
      else restore_search resp' object_name alert_id restore_properties
  end.

(** The request payload of [restore_latest_clean_snapshot], built field by
    field in the order of the dictionary display. *)
Definition restore_request_payload (restore_properties : gmap string (option string))
    : M RestoreRequest.t :=
  name ← lift (getitem "object" (restore_properties !! "object")
                 ≫= py_concat "Cortex_XSOAR_triggered_restore_task_");
  current_millis ← get_current_millis;
  jobId ← lift (getitem "jobId" (restore_properties !! "jobId") ≫= py_int_of_value);
  jobRunId ← lift (getitem "jobInstanceId" (restore_properties !! "jobInstanceId")
                     ≫= py_int_of_value);
  startedTimeUsecs ← lift (getitem "jobStartTimeUsecs"
                             (restore_properties !! "jobStartTimeUsecs")
                             ≫= py_int_of_value);
  sourceName ← lift (getitem "object" (restore_properties !! "object"));
  protectionSourceId ← lift (getitem "entityId" (restore_properties !! "entityId")
                               ≫= py_int_of_value);
  mret (RestoreRequest.Make
          name
          "kRecoverVMs"
          (RestoreRequest.VmwareParameters true "Recover-"
             ("-VM-" +:+ str_of_int current_millis))
          [RestoreRequest.RestoreObject jobId jobRunId startedTimeUsecs sourceName
             protectionSourceId]).

(** [restore_latest_clean_snapshot] *)
Definition restore_latest_clean_snapshot (client : Client) (args : gmap string string)
    : M string :=
  let object_name := args !! "object_name" in
  resp ← get_ransomware_alerts_default client;
  '(alert_id, restore_properties) ← lift (restore_search resp object_name "" ∅);
  if decide (alert_id = "") then
    raise (ValueError ("CohesityHelios error: no anomalous object found by the given name "
                         +:+ py_str object_name +:+ "."))
  else
    request_payload ← restore_request_payload restore_properties;
    cluster_id ← lift (getitem "cid" (restore_properties !! "cid"));
    _ ← restore_vm_object client cluster_id request_payload;
    _ ← resolve_ransomware_alert_by_id client (Some alert_id);
    mret ("Restored object " +:+ py_str object_name +:+ ".").

(** The start of the fetch window: the stored watermark, or seven days
    before now on a first run. *)
Definition fetch_start_time (last_run : gmap string scalar) : M Z :=
  if bool_decide (last_run ≠ ∅) && bool_decide (is_Some (last_run !! "start_time"))
  then v ← lift (getitem "start_time" (last_run !! "start_time")); lift (py_int v)
  else now ← datetime_now;
       mret (get_millis_from_date_time (utc_offset h)
               (datetime_minus now (timedelta_days 7))).

(** The [max_fetch] instance parameter, when it is a string of digits. *)
Definition configured_max_fetch (params : gmap string string) : M Z :=
  let max_fetch := params !! "max_fetch" in
  match max_fetch with
  | Some s => if negb (bool_decide (s = "")) && isdigit s
              then lift (py_int_of_string s)
              else mret MAX_FETCH_DEFAULT
  | None => mret MAX_FETCH_DEFAULT
  end.

(** [fetch_incidents_command] *)
Definition fetch_incidents_command (client : Client) : M unit :=
  last_run ← getLastRun;
  start_time_millis ← fetch_start_time last_run;
  end_time_millis ← get_current_millis;
  let params := demisto_params h in
  max_fetch ← configured_max_fetch params;
  ransomware_resp ← get_ransomware_alerts client (Some start_time_millis)
    (Some end_time_millis) (PInt max_fetch)
    default_alert_ids default_alert_state_list default_alert_severity_list
    default_region_ids default_cluster_ids;
  incidents ← lift (create_incidents ransomware_resp []);
  _ ← setLastRun {[ "start_time" := SInt end_time_millis ]};
  demisto_incidents incidents.

End Integration.

(** ** Sample inputs *)

Definition sample_document : alert_document :=
  AlertDocument (Some "Anomalous activity") (Some "Anomaly detected on a protected object")
    (Some "Change in backup pattern").

(** A ransomware alert with every key present. *)
Definition sample_alert (alert_id sev alert_state : string) (usecs : Z)
    (props : list property) : alert :=
  Alert (Some alert_id) (Some "CE01516011") (Some sev) (Some alert_state) (Some usecs)
    (Some sample_document) (Some (Some props)).

Definition restore_props (object : string) : list property :=
  [ Property "object" object; Property "environment" "kVMware";
    Property "anomalyStrength" "87"; Property "jobId" "7"; Property "jobInstanceId" "42";
    Property "jobStartTimeUsecs" "1631471000000000"; Property "entityId" "11";
    Property "cid" "8765" ].

Definition alert_vm_a : alert :=
  sample_alert "1" "kWarning" "kOpen" 1631471400000000 (restore_props "vm-a").
Definition alert_vm_b : alert :=
  sample_alert "2" "kCritical" "kOpen" 1631471500000000 (restore_props "vm-b").

(** An alert of another category, and one about [vm-b] that is critical
    but already resolved. *)
Definition alert_other_code : alert :=
  Alert (Some "9") (Some "CE00000001") (Some "kCritical") (Some "kOpen") None
    (Some sample_document) (Some (Some (restore_props "vm-b"))).
Definition alert_vm_b_resolved : alert :=
  sample_alert "3" "kCritical" "kResolved" 1631471300000000 (restore_props "vm-b").

(** A client whose service answers every alert query with [resp] and
    accepts every other request. *)
Definition sample_client (resp : list alert) : Client :=
  MkClient {[ "apikey" := Some "secret"; "Content-Type" := Some "application/json" ]}
    (fun _ => inr resp) (fun _ _ => inr tt) (fun _ _ => inr tt).

(** A client whose service refuses the recover request, and one whose
    service accepts it but refuses every patch. *)
Definition recover_refused : exn := DemistoException "Error in API call [500] - recover".
Definition patch_refused : exn := DemistoException "Error in API call [500] - patch".

Definition client_recover_fails (resp : list alert) : Client :=
  MkClient ∅ (fun _ => inr resp) (fun _ _ => inr tt) (fun _ _ => inl recover_refused).
Definition client_patch_fails (resp : list alert) : Client :=
  MkClient ∅ (fun _ => inr resp) (fun _ _ => inl patch_refused) (fun _ _ => inr tt).

(** A host in zone UTC and one in UTC+1; the clock starts at
    2021-09-12T18:30:00Z and advances one millisecond per read. *)
Definition sample_clock (n : nat) : Z := 1631471400000000 + 1000 * Z.of_nat n.
Definition host_utc : host := Host 0 sample_clock ∅.
Definition host_cet : host := Host 3600 sample_clock ∅.

(** The state of a fresh invocation: the objects of the module exist,
    nothing has happened, nothing is stored. *)
Definition initial_state : state := State MODULE_OBJECTS 0 ∅ [].

(** A ransomware alert without [latestTimestampUsecs]. *)
Definition alert_no_timestamp : alert :=
  Alert (Some "4") (Some "CE01516011") (Some "kInfo") (Some "kOpen") None
    (Some sample_document) (Some (Some (restore_props "vm-c"))).

(** A critical, open ransomware alert whose [propertyList] key is absent. *)
Definition alert_no_properties : alert :=
  Alert (Some "5") (Some "CE01516011") (Some "kCritical") (Some "kOpen")
    (Some 1631471200000000) (Some sample_document) None.

(** A ransomware alert with a severity and nothing else. *)
Definition alert_bare_warning : alert :=
  Alert None (Some "CE01516011") (Some "kWarning") None None None None.

(** The arguments of a command about [vm-b]. *)
Definition args_vm_b : gmap string string := {[ "object_name" := "vm-b" ]}.

(** ** The remaining helpers and commands *)

Module AlertDetails.
Record t := Make {
  alert_id : string;
  occurrence_time : string;
  severity : option string;
  alert_description : string;
  alert_cause : string;
  anomalous_object_name : option string;
  anomalous_object_env : option string;
  anomaly_strength : option string
}.
End AlertDetails.

(** [CommandResults] of CommonServerPython, with the three fields the
    integration sets. *)
Record CommandResults := MkCommandResults {
  outputs_prefix : string;
  outputs_key_field : string;
  outputs : list AlertDetails.t
}.

(** [needle in hay] on strings. *)
Fixpoint contains (needle hay : string) : bool :=
  match hay with
  | EmptyString => bool_decide (needle = EmptyString)
  | String _ hay' => String.prefix needle hay || contains needle hay'
  end.

(** [try: m except Exception as e: handler(e)] *)
Definition try_except {A} (m : M A) (handler : exn -> M A) : M A := fun st =>
  match m st with
  | (inl e, st') => handler e st'
  | (inr x, st') => (inr x, st')
  end.

(** A list object made while a command runs, with the given items. *)
Definition alloc_list (l : list string) : M pylist := fun st =>
  (inr (PyList (next_oid st) l),
   State (S (next_oid st)) (clock_reads st) (last_run_store st) (trace st)).

Section Commands.
Context (h : host).

(** [dateparser.parse], of the dateparser package: the naive datetime a
    date string denotes, or [None]. *)
Context (parse : string -> option datetime).

(** The items [argToList] of CommonServerPython reads off a string
    argument. *)
Context (argToList_items : string -> list string).

(** [datestring_to_millis] *)
Definition datestring_to_millis (ds : string) : option Z :=
  match parse ds with
  | None => None
  | Some dt => Some (py_int_of_float (timestamp (utc_offset h) dt) * 1000)
  end.

(** [argToList(args.get(k, []))]: a new list either way. *)
Definition argToList (arg : option string) : M pylist :=
  match arg with
  | None => _ ← new_list; new_list
  | Some s => alloc_list (argToList_items s)
  end.

(** [get_ransomware_alert_details] *)
Definition get_ransomware_alert_details (alert : alert) : result AlertDetails.t :=
  property_list ← getitem "propertyList" (propertyList alert);
  property_dict ← _get_property_dict property_list;
  let usecs : Z := default 0 (latestTimestampUsecs alert) in
  dt ← get_date_time_from_millis (utc_offset h) (inject_Z usecs / 1000)%Q;
  let occurance_time := strftime dt DATE_FORMAT in
  alert_id ← getitem "id" (id alert);
  doc ← getitem "alertDocument" (alertDocument alert);
  description ← getitem "alertDescription" (alertDescription doc);
  cause ← getitem "alertCause" (alertCause doc);
  mret (AlertDetails.Make
          alert_id
          occurance_time
          (severity alert)
          description
          cause
          (dict_get property_dict "object")
          (dict_get property_dict "environment")
          (dict_get property_dict "anomalyStrength")).

(** The loop of [get_ransomware_alerts_command] that parses the alerts. *)
Fixpoint parse_alert_details (resp : list alert) (ransomware_alerts : list AlertDetails.t)
    : result (list AlertDetails.t) :=
  match resp with
  | [] => inr ransomware_alerts
  | alert :: rest =>
      alert_details ← get_ransomware_alert_details alert;
      parse_alert_details rest (ransomware_alerts ++ [alert_details])
  end.

(** [get_ransomware_alerts_command] *)
Definition get_ransomware_alerts_command (client : Client) (args : gmap string string)
    : M CommandResults :=
  let start_time_millis := datestring_to_millis (default "" (args !! "created_after")) in
  let end_time_millis := datestring_to_millis (default "" (args !! "created_before")) in
  severity_list ← argToList (args !! "alert_severity_list");
  ids_list ← argToList (args !! "alert_id_list");
  let limit :=
    match args !! "limit" with
    | Some s => PStr s
    | None => PInt MAX_FETCH_DEFAULT
    end in
  resp ← get_ransomware_alerts client start_time_millis end_time_millis limit
    ids_list default_alert_state_list severity_list default_region_ids default_cluster_ids;
  ransomware_alerts ← lift (parse_alert_details resp []);
  mret (MkCommandResults "CohesityHelios.RansomwareAlert" "alert_id" ransomware_alerts).

(** [test_module] *)
Definition test_module (client : Client) : M string :=
  try_except
    (_ ← get_ransomware_alerts client (Some 1631471400000) None (PInt MAX_FETCH_DEFAULT)
           default_alert_ids default_alert_state_list default_alert_severity_list
           default_region_ids default_cluster_ids;
     mret "ok")
    (fun e =>
       match e with
       | DemistoException msg =>
           if contains "Forbidden" msg || contains "Authorization" msg
           then mret "Authorization Error: make sure API Key is correctly set"
           else raise e
       | _ => raise e
       end).

End Commands.

(** ** Further sample inputs *)

(** Critical, open ransomware alerts about [vm-b]: one whose id is the
    empty string, one without the key [id], and one whose properties lack
    [cid]. *)
Definition alert_vm_b_empty_id : alert :=
  sample_alert "" "kCritical" "kOpen" 1631471500000000 (restore_props "vm-b").
Definition alert_vm_b_no_id : alert :=
  Alert None (Some "CE01516011") (Some "kCritical") (Some "kOpen") (Some 1631471500000000)
    (Some sample_document) (Some (Some (restore_props "vm-b"))).
Definition props_no_cid : list property :=
  [ Property "object" "vm-b"; Property "jobId" "7"; Property "jobInstanceId" "42";
    Property "jobStartTimeUsecs" "1631471000000000"; Property "entityId" "11" ].
Definition alert_vm_b_no_cid : alert :=
  sample_alert "6" "kCritical" "kOpen" 1631471500000000 props_no_cid.

(** The key/value pairs of [restore_props] and of [props_no_cid]. *)
Definition restore_pairs (object : string) : list (string * option string) :=
  [ ("object", Some object); ("environment", Some "kVMware");
    ("anomalyStrength", Some "87"); ("jobId", Some "7"); ("jobInstanceId", Some "42");
    ("jobStartTimeUsecs", Some "1631471000000000"); ("entityId", Some "11");
    ("cid", Some "8765") ].
Definition pairs_no_cid : list (string * option string) :=
  [ ("object", Some "vm-b"); ("jobId", Some "7"); ("jobInstanceId", Some "42");
    ("jobStartTimeUsecs", Some "1631471000000000"); ("entityId", Some "11") ].

(** The mapping of the properties a restore request is built from. *)
Definition restore_dict : gmap string (option string) :=
  {[ "object" := Some "vm-b"; "jobId" := Some "7"; "jobInstanceId" := Some "42";
     "jobStartTimeUsecs" := Some "1631471000000000"; "entityId" := Some "11" ]}.

(** A ransomware alert whose [object] property is null, and one with an
    entry of its property list that lacks the value. *)
Definition alert_null_object : alert :=
  sample_alert "7" "kCritical" "kOpen" 1631471500000000
    [MkProperty (Some "object") (Some None)].
Definition alert_entry_without_value : alert :=
  sample_alert "8" "kCritical" "kOpen" 1631471500000000
    [MkProperty (Some "object") None].


(** The arguments of a listing of the alerts with id 7 or 8, with
    [argToList] splitting at commas as far as this one string goes, and a
    date parser that knows no date. *)
Definition args_ids : gmap string string := {[ "alert_id_list" := "7,8" ]}.
Definition sample_argToList_items (s : string) : list string :=
  if decide (s = "7,8") then ["7"; "8"] else [s].
Definition parse_nothing (ds : string) : option datetime := None.

(** ** Vocabulary of the statements *)

(** The entry of a key/value pair; the value is a string or null. *)
Definition entry (kv : string * option string) : property :=
  MkProperty (Some kv.1) (Some kv.2).

(** The mapping after the pairs are entered in order. *)
Definition insert_pairs (pairs : list (string * option string))
    (d : gmap string (option string)) : gmap string (option string) :=
  foldl (λ d kv, <[kv.1 := kv.2]> d) d pairs.

(** What the commands read off the properties of an alert:
    [_get_property_dict(alert['propertyList'])]. *)
Definition properties_of (a : alert) : result (gmap string (option string)) :=
  getitem "propertyList" (propertyList a) ≫= _get_property_dict.

(** The alert carries a [propertyList] that is a list whose entries each
    have a key and a value. *)
Definition well_formed_properties (a : alert) : Prop :=
  ∃ l, propertyList a = Some (Some l) ∧
       Forall (λ p, is_Some (key p) ∧ is_Some (value p)) l.

(** The alert is about the requested object: its properties can be read
    and [property_dict.get('object', "")] equals the requested name. *)
Definition names_object (object_name : option string) (a : alert) : bool :=
  match properties_of a with
  | inr property_dict => eq_object_name property_dict object_name
  | inl _ => false
  end.

(** The alert is critical, open and about the requested object. *)
Definition restore_candidate (object_name : option string) (a : alert) : bool :=
  bool_decide (severity a = Some "kCritical") &&
  bool_decide (alertState a = Some "kOpen") &&
  names_object object_name a.

(** The restore scan can pass over the alert: it has a severity; when
    that is kCritical it has a state; and when that is kOpen its
    properties are well formed and it is not about the requested object. *)
Definition restore_skips (object_name : option string) (a : alert) : Prop :=
  ∃ sev, severity a = Some sev ∧
    (sev = "kCritical" →
     ∃ state, alertState a = Some state ∧
       (state = "kOpen" →
        well_formed_properties a ∧ names_object object_name a = false)).


(** The requests of the two remediation flows. *)
Definition suppress_request (alert_id : string) : request :=
  PATCH ("/mcm/alerts/" +:+ alert_id) {[ "status" := "kSuppressed" ]}.
Definition resolve_request (alert_id : string) : request :=
  PATCH ("/mcm/alerts/" +:+ alert_id) {[ "status" := "kResolved" ]}.

(** * Properties *)

(** ** The property-list flattener *)

Lemma _get_property_dict_loop_app (l1 l2 : list property) (d : gmap string (option string)) :
  _get_property_dict_loop (l1 ++ l2) d =
    _get_property_dict_loop l1 d ≫= _get_property_dict_loop l2.
Proof.
  revert d. induction l1 as [|p l1 IH]; intros d; [done|]. cbn.
  destruct (set_property d p) as [e|d']; [done|]. cbn. apply IH.
Qed.

(** The flattener returns exactly on the lists whose entries have a key
    and a value. *)
Lemma _get_property_dict_loop_returns (l : list property) (d : gmap string (option string)) :
  (∃ d', _get_property_dict_loop l d = inr d') ↔
  Forall (λ p, is_Some (key p) ∧ is_Some (value p)) l.
Proof.
  revert d. induction l as [|p l IH]; intros d; cbn.
  - split; [constructor | by eexists].
  - rewrite Forall_cons, <- (IH (<[default "" (key p) := default None (value p)]> d)).
    unfold set_property.
    destruct (value p) as [v|]; cbn; [|split; [by intros [? ?] | by intros [[_ [? ?]] _]]].
    destruct (key p) as [k|]; cbn; [|split; [by intros [? ?] | by intros [[[? ?] _] _]]].
    split; [intros Hd; split; [by split|done] | by intros [_ Hd]].
Qed.

Lemma properties_of_well_formed (a : alert) :
  (∃ d, properties_of a = inr d) ↔ well_formed_properties a.
Proof.
  unfold properties_of, well_formed_properties.
  destruct (propertyList a) as [[l|]|]; cbn.
  - rewrite _get_property_dict_loop_returns. split.
    + intros Hl. by exists l.
    + by intros (l' & [= <-] & Hl).
  - split; [by intros [? ?] | by intros (? & ? & _)].
  - split; [by intros [? ?] | by intros (? & ? & _)].
Qed.

(** On a list of pairs the loop is a fold of insertions. *)
Lemma _get_property_dict_loop_pairs (pairs : list (string * option string))
    (d : gmap string (option string)) :
  _get_property_dict_loop (entry <$> pairs) d =
    inr (insert_pairs pairs d).
Proof.
  unfold insert_pairs.
  revert d. induction pairs as [|[k v] pairs IH]; intros d; [done|]. cbn. apply IH.
Qed.

Lemma insertions_keys (pairs : list (string * option string)) (k : string) :
  k ∈ pairs.*1 ↔ is_Some (insert_pairs pairs ∅ !! k).
Proof.
  induction pairs as [|[k' v] pairs IH] using rev_ind.
  - cbn. rewrite lookup_empty. split; [by intros ?%elem_of_nil | by intros [? ?]].
  - unfold insert_pairs in *.
    rewrite foldl_snoc, fmap_app, elem_of_app, lookup_insert_is_Some.
    cbn. rewrite list_elem_of_singleton, IH.
    destruct (decide (k' = k)) as [->|Hne]; [tauto|].
    split; [intros [?|?]; [tauto|congruence] | tauto].
Qed.

Lemma insertions_last (after before : list (string * option string)) (k : string)
    (v : option string) :
  k ∉ after.*1 →
  insert_pairs (before ++ (k, v) :: after) ∅ !! k = Some v.
Proof.
  unfold insert_pairs.
  induction after as [|[k' v'] after IH] using rev_ind; intros Hlast.
  - by rewrite foldl_snoc, lookup_insert_eq.
  - rewrite fmap_app, not_elem_of_app in Hlast. destruct Hlast as [Hafter Hk'].
    cbn in Hk'. rewrite list_elem_of_singleton in Hk'.
    replace (before ++ (k, v) :: after ++ [(k', v')])
      with ((before ++ (k, v) :: after) ++ [(k', v')]) by (by rewrite <- app_assoc).
    rewrite foldl_snoc. cbn. rewrite lookup_insert_ne by congruence. by apply IH.
Qed.

(** C9: [_get_property_dict] is a function from a list of key/value pairs
    to a mapping: on the entries of such a list it returns, exactly the
    keys of the list are bound, and each key is bound to the value of its
    last occurrence in the list (an occurrence after which the key does
    not occur again). *)
Theorem property_dict_last_occurrence_wins (pairs : list (string * option string)) :
  ∃ property_dict,
    _get_property_dict (Some (entry <$> pairs)) = inr property_dict ∧
    (∀ k, k ∈ pairs.*1 ↔ is_Some (property_dict !! k)) ∧
    (∀ before k v after,
       pairs = before ++ (k, v) :: after →
       k ∉ after.*1 →
       property_dict !! k = Some v).
Proof.
  eexists. split; [apply _get_property_dict_loop_pairs|]. split.
  - intros k. apply insertions_keys.
  - intros before k v after -> Hlast. by apply insertions_last.
Qed.

(** ** The severity mapping *)

(** C8: [convert_to_demisto_severity_int] returns a severity for every
    string, without an exception path: INFO for kInfo, LOW for kWarning,
    HIGH for kCritical and UNKNOWN for every other string. *)
Theorem severity_mapping_total (s : string) :
  convert_to_demisto_severity_int (Some s) =
    if decide (s = "kInfo") then INFO
    else if decide (s = "kWarning") then LOW
    else if decide (s = "kCritical") then HIGH
    else UNKNOWN.
Proof.
  unfold convert_to_demisto_severity_int, severity_table.
  rewrite !lookup_insert, lookup_singleton.
  repeat case_decide; subst; done.
Qed.

(** ** Running commands *)

Lemma bind_run {A B} (m : M A) (f : A → M B) (st : state) :
  (m ≫= f) st =
    match m st with
    | (inl e, st') => (inl e, st')
    | (inr x, st') => f x st'
    end.
Proof. reflexivity. Qed.

Lemma lift_bind_run {A B} (r : result A) (f : A → M B) (st : state) :
  (lift r ≫= f) st = match r with inl e => (inl e, st) | inr x => f x st end.
Proof. rewrite bind_run. unfold lift. by destruct r. Qed.

Lemma _http_request_run {A} (r : request) (answer : result A) (st : state) :
  _http_request r answer st =
    (answer, State (next_oid st) (clock_reads st) (last_run_store st) (trace st ++ [Http r])).
Proof. reflexivity. Qed.

(** ** Object identity and the request parameters *)

Lemma is_not_fresh (x : pylist) (n : nat) : (oid x < n)%nat → is_not x (PyList n []) = true.
Proof.
  intros Hlive. unfold is_not. cbn. apply negb_true_iff, Nat.eqb_neq. lia.
Qed.

Lemma set_if_is_not_empty_display_run k x (request_params : gmap string param) st :
  ∃ request_params' : gmap string param,
    set_if_is_not_empty_display k x request_params st =
      (inr request_params',
       State (S (next_oid st)) (clock_reads st) (last_run_store st) (trace st)) ∧
    (∀ k', k ≠ k' → request_params' !! k' = request_params !! k') ∧
    ((oid x < next_oid st)%nat → request_params' !! k = Some (PList x)).
Proof.
  eexists. split; [reflexivity|]. split.
  - intros k' Hne. destruct (is_not _ _); [by rewrite lookup_insert_ne | done].
  - intros Hlive. rewrite is_not_fresh by done. by rewrite lookup_insert_eq.
Qed.

Lemma prepare_request_params_run start_time_millis end_time_millis max_fetch
    alert_ids alert_state_list alert_severity_list region_ids cluster_ids st :
  ∃ request_params : gmap string param,
    prepare_request_params start_time_millis end_time_millis max_fetch
      alert_ids alert_state_list alert_severity_list region_ids cluster_ids st =
      (inr request_params,
       State (5 + next_oid st) (clock_reads st) (last_run_store st) (trace st)) ∧
    request_params !! "startDateUsecs" = (λ t, PInt (t * 1000)) <$> start_time_millis ∧
    request_params !! "endDateUsecs" = (λ t, PInt (t * 1000)) <$> end_time_millis ∧
    request_params !! "maxAlerts" = Some max_fetch ∧
    ((oid alert_ids < next_oid st)%nat →
     (oid alert_state_list < next_oid st)%nat →
     (oid alert_severity_list < next_oid st)%nat →
     (oid region_ids < next_oid st)%nat →
     (oid cluster_ids < next_oid st)%nat →
     request_params !! "alertIdList" = Some (PList alert_ids) ∧
     request_params !! "alertStateList" = Some (PList alert_state_list) ∧
     request_params !! "alertSeverityList" = Some (PList alert_severity_list) ∧
     request_params !! "region_ids" = Some (PList region_ids) ∧
     request_params !! "clusterIdentifiers" = Some (PList cluster_ids)).
Proof.
  unfold prepare_request_params. cbv zeta.
  match goal with
  | |- context [set_if_is_not_empty_display "alertIdList" _ ?r] => set (rp0 := r)
  end.
  edestruct (set_if_is_not_empty_display_run "alertIdList" alert_ids rp0)
    as (rp1 & E1 & O1 & L1).
  rewrite bind_run, E1; cbv beta iota.
  edestruct (set_if_is_not_empty_display_run "alertStateList" alert_state_list rp1)
    as (rp2 & E2 & O2 & L2).
  rewrite bind_run, E2; cbv beta iota.
  edestruct (set_if_is_not_empty_display_run "alertSeverityList" alert_severity_list rp2)
    as (rp3 & E3 & O3 & L3).
  rewrite bind_run, E3; cbv beta iota.
  edestruct (set_if_is_not_empty_display_run "region_ids" region_ids rp3)
    as (rp4 & E4 & O4 & L4).
  rewrite bind_run, E4; cbv beta iota.
  edestruct (set_if_is_not_empty_display_run "clusterIdentifiers" cluster_ids rp4)
    as (rp5 & E5 & O5 & L5).
  rewrite bind_run, E5; cbv beta iota.
  clear E1 E2 E3 E4 E5. cbn [next_oid clock_reads last_run_store trace] in *.
  exists rp5. split; [reflexivity|].
  assert (Hstart : rp0 !! "startDateUsecs" = (λ t, PInt (t * 1000)) <$> start_time_millis).
  { subst rp0. destruct start_time_millis, end_time_millis; cbn;
      by repeat (rewrite ?lookup_insert_eq; rewrite ?lookup_insert_ne by done). }
  assert (Hend : rp0 !! "endDateUsecs" = (λ t, PInt (t * 1000)) <$> end_time_millis).
  { subst rp0. destruct start_time_millis, end_time_millis; cbn;
      by repeat (rewrite ?lookup_insert_eq; rewrite ?lookup_insert_ne by done). }
  assert (Hmax : rp0 !! "maxAlerts" = Some max_fetch).
  { subst rp0. destruct start_time_millis, end_time_millis; cbn;
      by repeat (rewrite ?lookup_insert_eq; rewrite ?lookup_insert_ne by done). }
  repeat split.
  - by rewrite O5, O4, O3, O2, O1.
  - by rewrite O5, O4, O3, O2, O1.
  - by rewrite O5, O4, O3, O2, O1.
  - rewrite O5, O4, O3, O2 by done. apply L1. done.
  - rewrite O5, O4, O3 by done. apply L2. lia.
  - rewrite O5, O4 by done. apply L3. lia.
  - rewrite O5 by done. apply L4. lia.
  - apply L5. lia.
Qed.

(** ** Fetching the ransomware alerts *)

Lemma filter_ransomware_alerts_sound (resp acc ransomware_alerts : list alert) :
  filter_ransomware_alerts resp acc = inr ransomware_alerts →
  ransomware_alerts = acc ++ filter (λ a, alertCode a = Some "CE01516011") resp.
Proof.
  revert acc. induction resp as [|a resp IH]; intros acc Hrun; cbn in Hrun.
  - rewrite app_nil_r. congruence.
  - destruct (alertCode a) as [code|] eqn:Hcode; cbn in Hrun; [|discriminate].
    destruct (decide (code = "CE01516011")) as [->|Hne].
    + rewrite filter_cons_True by done.
      apply IH in Hrun. by rewrite <- app_assoc in Hrun.
    + rewrite filter_cons_False by congruence. by apply IH.
Qed.

Lemma filter_ransomware_alerts_complete (resp acc : list alert) :
  Forall (λ a, is_Some (alertCode a)) resp →
  filter_ransomware_alerts resp acc =
    inr (acc ++ filter (λ a, alertCode a = Some "CE01516011") resp).
Proof.
  intros Hcodes. revert acc.
  induction Hcodes as [|a resp [code Hcode] _ IH]; intros acc; cbn -[filter].
  - by rewrite app_nil_r.
  - rewrite Hcode. cbn -[filter].
    destruct (decide (code = "CE01516011")) as [->|Hne].
    + rewrite filter_cons_True by done. by rewrite IH, <- app_assoc.
    + rewrite filter_cons_False by congruence. apply IH.
Qed.

Lemma get_ransomware_alerts_run self start_time_millis end_time_millis max_fetch
    alert_ids alert_state_list alert_severity_list region_ids cluster_ids st :
  ∃ request_params : gmap string param,
    prepare_request_params start_time_millis end_time_millis max_fetch
      alert_ids alert_state_list alert_severity_list region_ids cluster_ids st =
      (inr request_params,
       State (5 + next_oid st) (clock_reads st) (last_run_store st) (trace st)) ∧
    get_ransomware_alerts self start_time_millis end_time_millis max_fetch
      alert_ids alert_state_list alert_severity_list region_ids cluster_ids st =
      (alerts_api self request_params ≫= λ resp, filter_ransomware_alerts resp [],
       State (5 + next_oid st) (clock_reads st) (last_run_store st)
         (trace st ++ [Http (GET "/mcm/alerts" request_params)])).
Proof.
  destruct (prepare_request_params_run start_time_millis end_time_millis max_fetch
    alert_ids alert_state_list alert_severity_list region_ids cluster_ids st)
    as (request_params & Hprep & _).
  exists request_params. split; [done|].
  unfold get_ransomware_alerts. rewrite bind_run, Hprep.
  rewrite bind_run, _http_request_run.
  by destruct (alerts_api self request_params).
Qed.

(** C1: [Client.get_ransomware_alerts] sends one GET request; whatever
    list the service answers, the list the call returns is exactly the
    sub-list, in response order, of the alerts whose [alertCode] is
    CE01516011, so every alert handed to a caller carries that code; and
    it does return that list whenever each alert of the response has an
    [alertCode]. An exception of the service is passed on. *)
Theorem get_ransomware_alerts_keeps_ransomware_code self start_time_millis end_time_millis
    max_fetch alert_ids alert_state_list alert_severity_list region_ids cluster_ids st :
  let run := get_ransomware_alerts self start_time_millis end_time_millis max_fetch
               alert_ids alert_state_list alert_severity_list region_ids cluster_ids st in
  ∃ request_params,
    trace run.2 = trace st ++ [Http (GET "/mcm/alerts" request_params)] ∧
    match alerts_api self request_params with
    | inl e => run.1 = inl e
    | inr resp =>
        (∀ ransomware_alerts,
           run.1 = inr ransomware_alerts →
           ransomware_alerts = filter (λ a, alertCode a = Some "CE01516011") resp ∧
           Forall (λ a, alertCode a = Some "CE01516011") ransomware_alerts) ∧
        (Forall (λ a, is_Some (alertCode a)) resp →
         run.1 = inr (filter (λ a, alertCode a = Some "CE01516011") resp))
    end.
Proof.
  intros run.
  destruct (get_ransomware_alerts_run self start_time_millis end_time_millis max_fetch
    alert_ids alert_state_list alert_severity_list region_ids cluster_ids st)
    as (request_params & _ & Hrun).
  exists request_params. subst run. rewrite Hrun. cbn [fst snd trace].
  split; [done|].
  destruct (alerts_api self request_params) as [e|resp]; [done|]. cbn.
  split.
  - intros ransomware_alerts Hret.
    apply filter_ransomware_alerts_sound in Hret. cbn in Hret. subst. split; [done|].
    apply Forall_forall. by intros a [? _]%list_elem_of_filter.
  - intros Hcodes. by rewrite filter_ransomware_alerts_complete.
Qed.

(** ** The ignore flow *)

Lemma get_ransomware_alerts_default_run (self : Client) (st : state) :
  ∃ request_params : gmap string param,
    get_ransomware_alerts_default self st =
      (alerts_api self request_params ≫= λ resp, filter_ransomware_alerts resp [],
       State (5 + next_oid st) (clock_reads st) (last_run_store st)
         (trace st ++ [Http (GET "/mcm/alerts" request_params)])).
Proof.
  unfold get_ransomware_alerts_default.
  edestruct get_ransomware_alerts_run as (request_params & _ & Hrun).
  exists request_params. apply Hrun.
Qed.

Lemma ignore_search_step (a : alert) (resp : list alert) (object_name alert_id : option string) :
  ignore_search (a :: resp) object_name alert_id =
    match properties_of a with
    | inl e => inl e
    | inr _ =>
        if names_object object_name a then inr (id a)
        else ignore_search resp object_name alert_id
    end.
Proof.
  cbn. unfold names_object, properties_of.
  destruct (getitem "propertyList" (propertyList a)) as [e|property_list]; [done|]. cbn.
  by destruct (_get_property_dict property_list).
Qed.

Lemma names_object_well_formed (object_name : option string) (a : alert) :
  names_object object_name a = true → well_formed_properties a.
Proof.
  intros Ha. apply properties_of_well_formed. unfold names_object in Ha.
  destruct (properties_of a); [done | by eexists].
Qed.

Lemma ignore_search_skip (b : alert) (resp : list alert) (object_name alert_id : option string) :
  well_formed_properties b →
  names_object object_name b = false →
  ignore_search (b :: resp) object_name alert_id = ignore_search resp object_name alert_id.
Proof.
  intros [d Hd]%properties_of_well_formed Hb.
  by rewrite ignore_search_step, Hd, Hb.
Qed.

Lemma ignore_search_first (pre : list alert) (a : alert) (post : list alert)
    (object_name alert_id : option string) :
  Forall well_formed_properties pre →
  Forall (λ b, names_object object_name b = false) pre →
  names_object object_name a = true →
  ignore_search (pre ++ a :: post) object_name alert_id = inr (id a).
Proof.
  intros Hkeys Hnone Ha.
  induction pre as [|b pre IH]; cbn [app].
  - rewrite ignore_search_step, Ha.
    apply names_object_well_formed, properties_of_well_formed in Ha as [d ->]. done.
  - inversion Hkeys; inversion Hnone; subst.
    rewrite ignore_search_skip by done. by apply IH.
Qed.

Lemma ignore_search_none (resp : list alert) (object_name alert_id : option string) :
  Forall well_formed_properties resp →
  Forall (λ b, names_object object_name b = false) resp →
  ignore_search resp object_name alert_id = inr alert_id.
Proof.
  intros Hkeys Hnone.
  induction resp as [|b resp IH]; [done|].
  inversion Hkeys; inversion Hnone; subst.
  rewrite ignore_search_skip by done. by apply IH.
Qed.

Lemma ignore_search_sound (resp : list alert) (object_name alert_id found : option string) :
  ignore_search resp object_name alert_id = inr found →
  (found = alert_id ∧ Forall well_formed_properties resp ∧
   Forall (λ b, names_object object_name b = false) resp) ∨
  (∃ pre a post,
     resp = pre ++ a :: post ∧
     Forall well_formed_properties pre ∧
     Forall (λ b, names_object object_name b = false) pre ∧
     names_object object_name a = true ∧ found = id a).
Proof.
  induction resp as [|b resp IH]; intros Hrun.
  - left. cbn in Hrun. split; [congruence | split; constructor].
  - rewrite ignore_search_step in Hrun.
    destruct (properties_of b) as [e|d] eqn:Hd; [done|].
    assert (Hwf : well_formed_properties b)
      by (apply properties_of_well_formed; by exists d).
    destruct (names_object object_name b) eqn:Hb.
    + right. exists [], b, resp. repeat split; [constructor | constructor | done | congruence].
    + destruct (IH Hrun)
        as [(-> & Hkeys & Hnone) | (pre & a & post & -> & Hkeys & Hnone & Ha & ->)].
      * left. split; [done|]. split; by constructor.
      * right. exists (b :: pre), a, post. repeat split; [by constructor | by constructor | done].
Qed.

Lemma ignore_ransomware_anomaly_command_run (client : Client) (args : gmap string string)
    (st st1 : state) (fetched : result (list alert)) :
  get_ransomware_alerts_default client st = (fetched, st1) →
  ignore_ransomware_anomaly_command client args st =
    match fetched ≫= λ resp, ignore_search resp (args !! "object_name") (Some "") with
    | inl e => (inl e, st1)
    | inr alert_id =>
        if decide (alert_id = Some "") then
          (inl (ValueError
                  ("CohesityHelios error: no anomalous object found by the given name: "
                     +:+ py_str (args !! "object_name") +:+ ". ")), st1)
        else
          match alert_id with
          | None => (inl (TypeError "can only concatenate str (not NoneType) to str"), st1)
          | Some i =>
              (patch_api client ("/mcm/alerts/" +:+ i) {[ "status" := "kSuppressed" ]}
                 ≫= λ _, inr ("Ignored object " +:+ py_str (args !! "object_name") +:+ "."),
               State (next_oid st1) (clock_reads st1) (last_run_store st1)
                 (trace st1 ++ [Http (suppress_request i)]))
          end
    end.
Proof.
  intros Hget. unfold ignore_ransomware_anomaly_command.
  rewrite bind_run, Hget.
  destruct fetched as [e|resp]; [done|]. cbn [mbind result_bind].
  rewrite lift_bind_run.
  destruct (ignore_search resp (args !! "object_name") (Some "")) as [e|alert_id]; [done|].
  destruct (decide (alert_id = Some "")) as [->|Hne]; [done|].
  rewrite bind_run. unfold suppress_ransomware_alert_by_id.
  rewrite lift_bind_run.
  destruct alert_id as [i|]; cbn [alert_url py_concat]; [|done].
  rewrite _http_request_run.
  by destruct (patch_api client _ _).
Qed.

(** C3 (amended): the ignore operation scans the fetched alerts in
    response order and suppresses the first alert whose object (the
    [object] entry of its flattened property list, the empty string when
    there is none) equals the requested name, with exactly one suppress
    request carrying its id, when every alert before it carries a
    [propertyList] that is a list of entries with a string key and a
    value (a string or null) and the alert itself has a non-empty id;
    whatever the fetched list, the operation sends after the fetch either
    nothing or that single suppress request for the first match. *)
Theorem ignore_suppresses_first_match (client : Client) (args : gmap string string)
    (st st1 : state) (fetched : list alert) :
  get_ransomware_alerts_default client st = (inr fetched, st1) →
  let object_name := args !! "object_name" in
  let run := ignore_ransomware_anomaly_command client args st in
  (∀ pre a post i,
     fetched = pre ++ a :: post →
     Forall well_formed_properties pre →
     Forall (λ b, names_object object_name b = false) pre →
     names_object object_name a = true →
     id a = Some i →
     i ≠ "" →
     trace run.2 = trace st1 ++ [Http (suppress_request i)] ∧
     run.1 = (patch_api client ("/mcm/alerts/" +:+ i) {[ "status" := "kSuppressed" ]}
                ≫= λ _, inr ("Ignored object " +:+ py_str object_name +:+ "."))) ∧
  (trace run.2 = trace st1 ∨
   ∃ pre a post i,
     fetched = pre ++ a :: post ∧
     Forall well_formed_properties pre ∧
     Forall (λ b, names_object object_name b = false) pre ∧
     names_object object_name a = true ∧
     id a = Some i ∧
     trace run.2 = trace st1 ++ [Http (suppress_request i)]).
Proof.
  intros Hget object_name run. subst run object_name.
  rewrite (ignore_ransomware_anomaly_command_run _ _ _ _ _ Hget). cbn [mbind result_bind].
  split.
  - intros pre a post i -> Hkeys Hnone Ha Hid Hi.
    rewrite ignore_search_first by done. rewrite Hid.
    rewrite decide_False by congruence. done.
  - destruct (ignore_search fetched (args !! "object_name") (Some "")) as [e|found] eqn:Hs;
      [by left|].
    destruct (decide (found = Some "")) as [->|Hne]; [by left|].
    destruct found as [i|]; [|by left].
    apply ignore_search_sound in Hs.
    destruct Hs as [[? _] | (pre & a & post & -> & Hkeys & Hnone & Ha & Hid)]; [done|].
    right. by exists pre, a, post, i.
Qed.

(** ** The restore flow *)

Lemma restore_search_step (a : alert) (resp : list alert) (object_name : option string)
    (alert_id : string) (restore_properties : gmap string (option string)) :
  restore_search (a :: resp) object_name alert_id restore_properties =
    (sev ← getitem "severity" (severity a);
     if decide (sev = "kCritical") then
       state ← getitem "alertState" (alertState a);
       if decide (state = "kOpen") then
         property_dict ← properties_of a;
         if eq_object_name property_dict object_name
         then alert_id ← getitem "id" (id a); mret (alert_id, property_dict)
         else restore_search resp object_name alert_id property_dict
       else restore_search resp object_name alert_id restore_properties
     else restore_search resp object_name alert_id restore_properties).
Proof.
  cbn. destruct (severity a) as [sev|]; cbn; [|done].
  destruct (decide (sev = "kCritical")); [|done].
  destruct (alertState a) as [state|]; cbn; [|done].
  destruct (decide (state = "kOpen")).
  - rewrite bool_decide_eq_true_2 by done. unfold properties_of.
    destruct (getitem "propertyList" (propertyList a)); [done|]. cbn.
    by destruct (_get_property_dict _).
  - by rewrite bool_decide_eq_false_2 by done.
Qed.

Lemma restore_skips_not_candidate (object_name : option string) (b : alert) :
  restore_skips object_name b → restore_candidate object_name b = false.
Proof.
  intros (sev & Hsev & Hcritical). unfold restore_candidate. rewrite Hsev.
  destruct (decide (sev = "kCritical")) as [->|Hne];
    [|by rewrite (bool_decide_eq_false_2 (Some sev = _)) by congruence].
  destruct (Hcritical eq_refl) as (state & Hstate & Hopen). rewrite Hstate.
  destruct (decide (state = "kOpen")) as [->|Hne];
    [|by rewrite (bool_decide_eq_false_2 (Some state = _)), andb_false_r by congruence].
  destruct (Hopen eq_refl) as [_ ->]. apply andb_false_r.
Qed.

Lemma restore_search_skip (b : alert) (resp : list alert) (object_name : option string)
    (alert_id : string) (restore_properties : gmap string (option string)) :
  restore_skips object_name b →
  ∃ restore_properties',
    restore_search (b :: resp) object_name alert_id restore_properties =
      restore_search resp object_name alert_id restore_properties'.
Proof.
  intros (sev & Hsev & Hcritical). rewrite restore_search_step, Hsev. cbn.
  destruct (decide (sev = "kCritical")) as [Hc|_]; [|by eexists].
  destruct (Hcritical Hc) as (state & -> & Hopen). cbn.
  destruct (decide (state = "kOpen")) as [Ho|_]; [|by eexists].
  destruct (Hopen Ho) as [[d Hd]%properties_of_well_formed Hname].
  unfold names_object in Hname. rewrite Hd in Hname |- *. cbn.
  rewrite Hname. by eexists.
Qed.

Lemma restore_search_first (pre : list alert) (a : alert) (post : list alert)
    (object_name : option string) (alert_id : string)
    (restore_properties property_dict : gmap string (option string)) :
  Forall (restore_skips object_name) pre →
  restore_candidate object_name a = true →
  properties_of a = inr property_dict →
  restore_search (pre ++ a :: post) object_name alert_id restore_properties =
    (alert_id ← getitem "id" (id a); mret (alert_id, property_dict)).
Proof.
  intros Hskips Ha Hd. revert restore_properties.
  induction pre as [|b pre IH]; intros restore_properties; cbn [app].
  - unfold restore_candidate, names_object in Ha. rewrite Hd in Ha.
    apply andb_true_iff in Ha as [[Hsev Hstate]%andb_true_iff Hname].
    apply bool_decide_eq_true in Hsev, Hstate.
    rewrite restore_search_step, Hsev, Hstate, Hd. cbn.
    rewrite !decide_True by done. cbn. by rewrite Hname.
  - inversion Hskips as [|? ? Hb Hskips']; subst.
    destruct (restore_search_skip b (pre ++ a :: post) object_name alert_id
                restore_properties Hb) as (restore_properties' & ->).
    by apply IH.
Qed.

Lemma restore_search_none (resp : list alert) (object_name : option string)
    (alert_id : string) (restore_properties : gmap string (option string)) :
  Forall (restore_skips object_name) resp →
  ∃ restore_properties',
    restore_search resp object_name alert_id restore_properties =
      inr (alert_id, restore_properties').
Proof.
  intros Hskips. revert restore_properties.
  induction resp as [|b resp IH]; intros restore_properties; [by eexists|].
  inversion Hskips as [|? ? Hb Hskips']; subst.
  destruct (restore_search_skip b resp object_name alert_id restore_properties Hb)
    as (restore_properties' & ->).
  by apply IH.
Qed.

Lemma restore_search_cons (a : alert) (resp : list alert) (object_name : option string)
    (alert_id : string) (restore_properties : gmap string (option string))
    (found : string * gmap string (option string)) :
  restore_search (a :: resp) object_name alert_id restore_properties = inr found →
  (restore_candidate object_name a = true ∧
   ∃ property_dict i,
     properties_of a = inr property_dict ∧ id a = Some i ∧ found = (i, property_dict)) ∨
  (restore_skips object_name a ∧
   ∃ restore_properties',
     restore_search resp object_name alert_id restore_properties' = inr found).
Proof.
  rewrite restore_search_step. unfold restore_candidate, restore_skips, names_object.
  destruct (severity a) as [sev|]; cbn; [|done].
  destruct (decide (sev = "kCritical")) as [->|Hsev].
  - destruct (alertState a) as [state|]; cbn; [|done].
    destruct (decide (state = "kOpen")) as [->|Hstate].
    + destruct (properties_of a) as [e|d] eqn:Hd; cbn; [done|].
      destruct (eq_object_name d object_name) eqn:Hname.
      * destruct (id a) as [i|]; cbn; [|done].
        intros [= <-]. left. rewrite !bool_decide_eq_true_2 by done.
        split; [done|]. by exists d, i.
      * intros Hrun. right. split; [|by eexists].
        exists "kCritical". split; [done|]. intros _.
        exists "kOpen". split; [done|]. intros _.
        split; [apply properties_of_well_formed; by exists d | done].
    + intros Hrun. right. split; [|by eexists].
      exists "kCritical". split; [done|]. intros _.
      exists state. split; [done|]. done.
  - intros Hrun. right. split; [|by eexists].
    exists sev. split; [done|]. done.
Qed.

Lemma restore_search_sound (resp : list alert) (object_name : option string)
    (alert_id : string) (restore_properties : gmap string (option string))
    (found : string) (found_properties : gmap string (option string)) :
  restore_search resp object_name alert_id restore_properties =
    inr (found, found_properties) →
  (found = alert_id ∧ Forall (restore_skips object_name) resp) ∨
  (∃ pre a post,
     resp = pre ++ a :: post ∧
     Forall (restore_skips object_name) pre ∧
     restore_candidate object_name a = true ∧
     properties_of a = inr found_properties ∧
     id a = Some found).
Proof.
  revert restore_properties.
  induction resp as [|b resp IH]; intros restore_properties Hrun.
  - left. cbn in Hrun. split; [congruence | constructor].
  - apply restore_search_cons in Hrun
      as [(Hb & d & i & Hd & Hid & [= -> ->]) | (Hb & restore_properties' & Hrun)].
    + right. exists [], b, resp. by repeat split.
    + destruct (IH _ Hrun)
        as [[-> Hskips] | (pre & a & post & -> & Hskips & Ha & Hd & Hid)].
      * left. split; [done | by constructor].
      * right. exists (b :: pre), a, post. repeat split; try done. by constructor.
Qed.

(** ** Clock reads *)

Lemma get_millis_from_date_time_wall (offset wall : Z) :
  get_millis_from_date_time offset (DateTime wall) =
    Z.quot (wall - offset * USECS_PER_SEC) 1000.
Proof.
  unfold get_millis_from_date_time, py_int_of_float, timestamp. cbn.
  change (Z.pos (1000000 * 1)) with (1000 * 1000).
  by rewrite Z.quot_mul_cancel_r.
Qed.

Lemma get_current_millis_run (h : host) (st : state) :
  get_current_millis h st =
    (inr (Z.quot (clock h (clock_reads st)) 1000),
     State (next_oid st) (S (clock_reads st)) (last_run_store st) (trace st)).
Proof.
  unfold get_current_millis. rewrite bind_run. cbn [datetime_now].
  change (py_int_of_float (timestamp (utc_offset h) ?dt * 1000))
    with (get_millis_from_date_time (utc_offset h) dt).
  cbv beta iota.
  rewrite get_millis_from_date_time_wall.
  replace (clock h (clock_reads st) + utc_offset h * USECS_PER_SEC
           - utc_offset h * USECS_PER_SEC) with (clock h (clock_reads st)) by lia.
  reflexivity.
Qed.

(** ** The restore command *)

Lemma restore_request_payload_run (h : host) (restore_properties : gmap string (option string))
    (st : state) :
  ∃ (r : result RestoreRequest.t) (st2 : state),
    restore_request_payload h restore_properties st = (r, st2) ∧
    trace st2 = trace st ∧ last_run_store st2 = last_run_store st.
Proof.
  unfold restore_request_payload.
  rewrite lift_bind_run.
  destruct (getitem "object" _ ≫= py_concat _); [by eexists _, _|].
  rewrite bind_run, get_current_millis_run.
  repeat first
    [ progress (rewrite lift_bind_run; cbv beta iota)
    | match goal with
      | |- context [match ?r with inl _ => _ | inr _ => _ end] =>
          destruct r; [eexists _, _; split; [reflexivity | done]|]
      end ].
  eexists _, _; split; [reflexivity | done].
Qed.

Lemma restore_latest_clean_snapshot_run (h : host) (client : Client)
    (args : gmap string string) (st st1 : state) (fetched : result (list alert)) :
  get_ransomware_alerts_default client st = (fetched, st1) →
  restore_latest_clean_snapshot h client args st =
    match fetched ≫= λ resp, restore_search resp (args !! "object_name") "" ∅ with
    | inl e => (inl e, st1)
    | inr (alert_id, restore_properties) =>
        if decide (alert_id = "") then
          (inl (ValueError
                  ("CohesityHelios error: no anomalous object found by the given name "
                     +:+ py_str (args !! "object_name") +:+ ".")), st1)
        else
          match restore_request_payload h restore_properties st1 with
          | (inl e, st2) => (inl e, st2)
          | (inr request_payload, st2) =>
              match getitem "cid" (restore_properties !! "cid") with
              | inl e => (inl e, st2)
              | inr cluster_id =>
                  let client_headers := <["clusterid" := cluster_id]> (_headers client) in
                  let recover :=
                    POST "/irisservices/api/v1/public/restore/recover" client_headers
                      request_payload in
                  match recover_api client client_headers request_payload with
                  | inl e =>
                      (inl e,
                       State (next_oid st2) (clock_reads st2) (last_run_store st2)
                         (trace st2 ++ [Http recover]))
                  | inr _ =>
                      (patch_api client ("/mcm/alerts/" +:+ alert_id)
                         {[ "status" := "kResolved" ]}
                         ≫= λ _, inr ("Restored object " +:+ py_str (args !! "object_name")
                                         +:+ "."),
                       State (next_oid st2) (clock_reads st2) (last_run_store st2)
                         ((trace st2 ++ [Http recover]) ++ [Http (resolve_request alert_id)]))
                  end
              end
          end
    end.
Proof.
  intros Hget. unfold restore_latest_clean_snapshot.
  rewrite bind_run, Hget.
  destruct fetched as [e|resp]; [done|]. cbn [mbind result_bind].
  rewrite lift_bind_run.
  destruct (restore_search resp (args !! "object_name") "" ∅)
    as [e|[alert_id restore_properties]]; [done|].
  destruct (decide (alert_id = "")) as [->|Hne]; [done|].
  rewrite bind_run.
  destruct (restore_request_payload h restore_properties st1) as [[e|request_payload] st2];
    [done|].
  rewrite lift_bind_run.
  destruct (getitem "cid" (restore_properties !! "cid")) as [e|cluster_id]; [done|].
  rewrite bind_run. unfold restore_vm_object. rewrite _http_request_run.
  cbv zeta.
  destruct (recover_api client _ request_payload) as [e|[]]; [done|].
  rewrite bind_run. unfold resolve_ransomware_alert_by_id.
  rewrite lift_bind_run. cbn [alert_url py_concat].
  rewrite _http_request_run. cbn [next_oid clock_reads last_run_store trace].
  by destruct (patch_api client _ _).
Qed.

(** The three ways a run of the restore command can end: before any
    state-changing request, with a refused recover request, or with the
    recover request accepted and the resolve request sent. *)
Lemma restore_latest_clean_snapshot_shape (h : host) (client : Client)
    (args : gmap string string) (st : state) :
  let run := restore_latest_clean_snapshot h client args st in
  ∃ request_params,
    let fetch := Http (GET "/mcm/alerts" request_params) in
    (trace run.2 = trace st ++ [fetch] ∧ ∃ e, run.1 = inl e) ∨
    (∃ headers payload e,
       trace run.2 = trace st ++
         [fetch; Http (POST "/irisservices/api/v1/public/restore/recover" headers payload)] ∧
       recover_api client headers payload = inl e ∧
       run.1 = inl e) ∨
    (∃ headers payload alert_id,
       trace run.2 = trace st ++
         [fetch; Http (POST "/irisservices/api/v1/public/restore/recover" headers payload);
          Http (resolve_request alert_id)] ∧
       recover_api client headers payload = inr tt ∧
       run.1 = (patch_api client ("/mcm/alerts/" +:+ alert_id) {[ "status" := "kResolved" ]}
                  ≫= λ _, inr ("Restored object " +:+ py_str (args !! "object_name") +:+ "."))).
Proof.
  intros run. subst run.
  destruct (get_ransomware_alerts_default_run client st) as (request_params & Hget).
  exists request_params. cbv zeta.
  rewrite (restore_latest_clean_snapshot_run _ _ _ _ _ _ Hget).
  match goal with
  | |- context [match ?r with inl _ => _ | inr _ => _ end] =>
      destruct r as [e|[alert_id restore_properties]]; [left; cbn; eauto|]
  end.
  destruct (decide (alert_id = "")); [left; cbn; eauto|].
  destruct (restore_request_payload_run h restore_properties
              (State (5 + next_oid st) (clock_reads st) (last_run_store st)
                 (trace st ++ [Http (GET "/mcm/alerts" request_params)])))
    as (r & st2 & Hpayload & Htrace & _).
  rewrite Hpayload. cbn [trace] in Htrace.
  destruct r as [e|request_payload]; [left; cbn; eauto|].
  destruct (getitem "cid" _) as [e|cluster_id]; [left; cbn; eauto|].
  cbv zeta.
  destruct (recover_api client _ request_payload) as [e|[]] eqn:Hrecover.
  - right; left. eexists _, _, e. cbn [fst snd trace].
    rewrite Htrace, <- app_assoc. done.
  - right; right. eexists _, _, alert_id. cbn [fst snd trace].
    rewrite Htrace, <- !app_assoc. done.
Qed.

(** C6: in the restore operation the resolve request is sent only after
    the recover request was answered without an exception: a resolve
    request in the trace is directly preceded by an accepted recover
    request; when the recover request raises, that exception is the
    outcome and no resolve request is sent; when it is accepted, the
    resolve request is sent and an exception of the resolve request is the
    outcome of the operation. *)
Theorem restore_resolves_only_after_recover (h : host) (client : Client)
    (args : gmap string string) (st : state) :
  let run := restore_latest_clean_snapshot h client args st in
  ∃ events,
    trace run.2 = trace st ++ events ∧
    (∀ url body,
       Http (PATCH url body) ∈ events →
       ∃ fetch headers payload,
         events = [fetch; Http (POST "/irisservices/api/v1/public/restore/recover"
                                  headers payload);
                   Http (PATCH url body)] ∧
         recover_api client headers payload = inr tt) ∧
    (∀ url_suffix headers payload,
       Http (POST url_suffix headers payload) ∈ events →
       match recover_api client headers payload with
       | inl e =>
           run.1 = inl e ∧ ∀ url body, Http (PATCH url body) ∉ events
       | inr _ =>
           ∃ alert_id,
             last events = Some (Http (resolve_request alert_id)) ∧
             ∀ e, patch_api client ("/mcm/alerts/" +:+ alert_id)
                    {[ "status" := "kResolved" ]} = inl e →
                  run.1 = inl e
       end).
Proof.
  intros run.
  destruct (restore_latest_clean_snapshot_shape h client args st)
    as (request_params & Hshape).
  fold run in Hshape. cbv zeta in Hshape.
  destruct Hshape
    as [[Htrace _]
       | [(headers & payload & e & Htrace & Hrecover & Hout)
         | (headers & payload & alert_id & Htrace & Hrecover & Hout)]];
    eexists; (split; [exact Htrace|]); split.
  - intros url body Hin. apply list_elem_of_singleton in Hin. discriminate.
  - intros url_suffix headers payload Hin.
    apply list_elem_of_singleton in Hin. discriminate.
  - intros url body Hin. rewrite !elem_of_cons, elem_of_nil in Hin.
    destruct Hin as [?|[?|[]]]; discriminate.
  - intros url_suffix headers' payload' Hin. rewrite !elem_of_cons, elem_of_nil in Hin.
    destruct Hin as [?|[[= -> -> ->]|[]]]; [discriminate|].
    rewrite Hrecover. split; [done|].
    intros url body Hin. rewrite !elem_of_cons, elem_of_nil in Hin.
    destruct Hin as [?|[?|[]]]; discriminate.
  - intros url body Hin. rewrite !elem_of_cons, elem_of_nil in Hin.
    destruct Hin as [?|[?|[Heq|[]]]]; try discriminate.
    rewrite Heq. by eexists _, _, _.
  - intros url_suffix headers' payload' Hin. rewrite !elem_of_cons, elem_of_nil in Hin.
    destruct Hin as [?|[[= -> -> ->]|[?|[]]]]; try discriminate.
    rewrite Hrecover. exists alert_id. split; [done|].
    intros e He. by rewrite Hout, He.
Qed.

(** C4 (amended): the restore operation selects the first fetched alert,
    in response order, that is critical, open and about the requested
    object, when the scan can pass over every alert before it (the alert
    has a severity; if that is kCritical it has a state; if that is kOpen
    its [propertyList] is a list of entries with a string key and a
    value, a string or null) and the selected alert has an id: the search
    returns the id and the flattened properties of that alert; whatever
    the list, an alert the search returns has severity kCritical, state
    kOpen and the requested object, no alert before it has all three, and
    a resolve request of the command is for that alert. *)
Theorem restore_selects_first_critical_open_match (h : host) (client : Client)
    (args : gmap string string) (st st1 : state) (fetched : list alert) :
  get_ransomware_alerts_default client st = (inr fetched, st1) →
  let object_name := args !! "object_name" in
  let run := restore_latest_clean_snapshot h client args st in
  (∀ pre a post property_dict i,
     fetched = pre ++ a :: post →
     Forall (restore_skips object_name) pre →
     restore_candidate object_name a = true →
     properties_of a = inr property_dict →
     id a = Some i →
     restore_search fetched object_name "" ∅ = inr (i, property_dict)) ∧
  (∀ i restore_properties,
     restore_search fetched object_name "" ∅ = inr (i, restore_properties) →
     i ≠ "" →
     ∃ pre a post,
       fetched = pre ++ a :: post ∧
       Forall (λ b, restore_candidate object_name b = false) pre ∧
       severity a = Some "kCritical" ∧
       alertState a = Some "kOpen" ∧
       names_object object_name a = true ∧
       id a = Some i ∧
       properties_of a = inr restore_properties) ∧
  (∀ url body,
     Http (PATCH url body) ∈ trace run.2 →
     Http (PATCH url body) ∉ trace st1 →
     ∃ pre a post i,
       fetched = pre ++ a :: post ∧
       Forall (λ b, restore_candidate object_name b = false) pre ∧
       restore_candidate object_name a = true ∧
       id a = Some i ∧
       PATCH url body = resolve_request i).
Proof.
  intros Hget object_name run.
  assert (Hsound : ∀ i restore_properties,
    restore_search fetched object_name "" ∅ = inr (i, restore_properties) →
    i ≠ "" →
    ∃ pre a post,
      fetched = pre ++ a :: post ∧
      Forall (λ b, restore_candidate object_name b = false) pre ∧
      restore_candidate object_name a = true ∧
      id a = Some i ∧
      properties_of a = inr restore_properties).
  { intros i restore_properties Hsearch Hi.
    apply restore_search_sound in Hsearch
      as [[? _] | (pre & a & post & -> & Hskips & Ha & Hd & Hid)]; [done|].
    exists pre, a, post. repeat split; try done.
    eapply Forall_impl; [exact Hskips|]. apply restore_skips_not_candidate. }
  split; [|split].
  - intros pre a post property_dict i -> Hskips Ha Hd Hid.
    rewrite (restore_search_first _ _ _ _ _ _ property_dict) by done. by rewrite Hid.
  - intros i restore_properties Hsearch Hi.
    destruct (Hsound _ _ Hsearch Hi) as (pre & a & post & -> & Hnone & Ha & Hid & Hd).
    exists pre, a, post.
    unfold restore_candidate in Ha.
    apply andb_true_iff in Ha as [[Hsev Hstate]%andb_true_iff Hname].
    apply bool_decide_eq_true in Hsev, Hstate. by repeat split.
  - intros url body Hin Hnew. subst run.
    rewrite (restore_latest_clean_snapshot_run _ _ _ _ _ _ Hget) in Hin.
    cbn [mbind result_bind] in Hin. fold object_name in Hin.
    destruct (restore_search fetched object_name "" ∅)
      as [e|[alert_id restore_properties]] eqn:Hsearch; [done|].
    destruct (decide (alert_id = "")) as [->|Hne]; [done|].
    destruct (restore_request_payload_run h restore_properties st1)
      as (r & st2 & Hpayload & Htrace & _).
    rewrite Hpayload in Hin.
    destruct r as [e|request_payload]; [cbn [snd] in Hin; by rewrite Htrace in Hin|].
    destruct (getitem "cid" _) as [e|cluster_id];
      [cbn [snd] in Hin; by rewrite Htrace in Hin|].
    cbv zeta in Hin.
    destruct (recover_api client _ request_payload) as [e|[]]; cbn [snd trace] in Hin;
      rewrite Htrace, ?elem_of_app, ?list_elem_of_singleton in Hin.
    + destruct Hin as [?|?]; [done | discriminate].
    + destruct Hin as [[?|?]|Heq]; [done | discriminate |].
      injection Heq as -> ->.
      destruct (Hsound _ _ eq_refl Hne)
        as (pre & a & post & -> & Hnone & Ha & Hid & _).
      exists pre, a, post, alert_id. by repeat split.
Qed.

(** C5 (amended): when the scan can pass over every fetched alert (for
    the ignore operation: its [propertyList] is a list of entries with a
    string key and a value, a string or null, and it is not about the
    requested object; for the restore operation: it has a severity, if
    that is kCritical a state, and if that is kOpen such a [propertyList]
    and another object), both operations raise the not-found error, whose
    message contains the requested name, and end in the state reached by
    the fetch: after the GET request nothing is sent, neither suppress nor
    recover nor resolve. *)
Theorem no_match_raises_not_found (h : host) (client : Client)
    (args : gmap string string) (st st1 : state) (fetched : list alert)
    (object_name : string) :
  get_ransomware_alerts_default client st = (inr fetched, st1) →
  args !! "object_name" = Some object_name →
  (∃ request_params, trace st1 = trace st ++ [Http (GET "/mcm/alerts" request_params)]) ∧
  (Forall well_formed_properties fetched →
   Forall (λ b, names_object (Some object_name) b = false) fetched →
   ignore_ransomware_anomaly_command client args st =
     (inl (ValueError
             ("CohesityHelios error: no anomalous object found by the given name: "
                +:+ object_name +:+ ". ")), st1)) ∧
  (Forall (restore_skips (Some object_name)) fetched →
   restore_latest_clean_snapshot h client args st =
     (inl (ValueError
             ("CohesityHelios error: no anomalous object found by the given name "
                +:+ object_name +:+ ".")), st1)).
Proof.
  intros Hget Hname. split; [|split].
  - destruct (get_ransomware_alerts_default_run client st) as (request_params & Hrun).
    exists request_params. rewrite Hrun in Hget. by injection Hget as _ <-.
  - intros Hkeys Hnone.
    rewrite (ignore_ransomware_anomaly_command_run _ _ _ _ _ Hget), Hname.
    cbn [mbind result_bind]. by rewrite ignore_search_none.
  - intros Hskips.
    rewrite (restore_latest_clean_snapshot_run _ _ _ _ _ _ Hget), Hname.
    cbn [mbind result_bind].
    destruct (restore_search_none fetched (Some object_name) "" ∅ Hskips)
      as (restore_properties' & ->).
    done.
Qed.

(** C10: in [Client.get_ransomware_alerts] a guard [x is not []] holds
    for every list [x] that exists when the guard is evaluated, so the
    request carries the five filter keys with the arguments as values; the
    entry [alertStateList] is the argument, never the initial kOpen. *)
Theorem empty_display_guards_always_hold (self : Client)
    (start_time_millis end_time_millis : option Z) (max_fetch : param)
    (alert_ids alert_state_list alert_severity_list region_ids cluster_ids : pylist)
    (st : state) :
  (oid alert_ids < next_oid st)%nat →
  (oid alert_state_list < next_oid st)%nat →
  (oid alert_severity_list < next_oid st)%nat →
  (oid region_ids < next_oid st)%nat →
  (oid cluster_ids < next_oid st)%nat →
  let run := get_ransomware_alerts self start_time_millis end_time_millis max_fetch
               alert_ids alert_state_list alert_severity_list region_ids cluster_ids st in
  (∀ x st' fresh st'',
     (oid x < next_oid st')%nat → new_list st' = (inr fresh, st'') → is_not x fresh = true) ∧
  ∃ request_params : gmap string param,
    trace run.2 = trace st ++ [Http (GET "/mcm/alerts" request_params)] ∧
    request_params !! "alertIdList" = Some (PList alert_ids) ∧
    request_params !! "alertStateList" = Some (PList alert_state_list) ∧
    request_params !! "alertStateList" ≠ Some (PStr "kOpen") ∧
    request_params !! "alertSeverityList" = Some (PList alert_severity_list) ∧
    request_params !! "region_ids" = Some (PList region_ids) ∧
    request_params !! "clusterIdentifiers" = Some (PList cluster_ids).
Proof.
  intros H1 H2 H3 H4 H5 run. split.
  - intros x st' fresh st'' Hlive [= <- _]. by apply is_not_fresh.
  - destruct (prepare_request_params_run start_time_millis end_time_millis max_fetch
      alert_ids alert_state_list alert_severity_list region_ids cluster_ids st)
      as (request_params & Hprep & _ & _ & _ & Hkeys).
    destruct (get_ransomware_alerts_run self start_time_millis end_time_millis max_fetch
      alert_ids alert_state_list alert_severity_list region_ids cluster_ids st)
      as (request_params' & Hprep' & Hrun).
    rewrite Hprep in Hprep'. injection Hprep' as <-.
    destruct (Hkeys H1 H2 H3 H4 H5) as (K1 & K2 & K3 & K4 & K5).
    exists request_params. subst run. rewrite Hrun. cbn [snd trace].
    rewrite K2. by repeat split.
Qed.

(** ** The polling cycle *)

Lemma isdigit_py_int_of_string (s : string) :
  isdigit s = true → ∃ z, py_int_of_string s = inr z.
Proof.
  destruct s as [|c s]; [done|]. cbn [isdigit].
  intros [z Hz]%bool_decide_eq_true.
  exists z. unfold py_int_of_string.
  destruct (decide (c = "-"%char)) as [->|_]; [done|].
  destruct (decide (c = "+"%char)) as [->|_]; [done|].
  by rewrite Hz.
Qed.

Lemma configured_max_fetch_run (params : gmap string string) (st : state) :
  ∃ max_fetch, configured_max_fetch params st = (inr max_fetch, st).
Proof.
  unfold configured_max_fetch.
  destruct (params !! "max_fetch") as [s|]; [|by eexists].
  destruct (negb (bool_decide (s = ""))); cbn [andb]; [|by eexists].
  destruct (isdigit s) eqn:Hs; [|by eexists].
  destruct (isdigit_py_int_of_string s Hs) as [z Hz].
  exists z. unfold lift. by rewrite Hz.
Qed.

Lemma fetch_start_time_stored (h : host) (st : state) (v : scalar) :
  last_run_store st !! "start_time" = Some v →
  fetch_start_time h (last_run_store st) st = (py_int v, st).
Proof.
  intros Hv. unfold fetch_start_time.
  rewrite (bool_decide_eq_true_2 (last_run_store st ≠ ∅))
    by (intros Hempty; by rewrite Hempty, lookup_empty in Hv).
  rewrite bool_decide_eq_true_2 by eauto. cbn [andb].
  rewrite lift_bind_run, Hv. done.
Qed.

Lemma fetch_start_time_first_run (h : host) (st : state) :
  last_run_store st !! "start_time" = None →
  fetch_start_time h (last_run_store st) st =
    (inr (Z.quot (clock h (clock_reads st) - timedelta_days 7) 1000),
     State (next_oid st) (S (clock_reads st)) (last_run_store st) (trace st)).
Proof.
  intros Hv. unfold fetch_start_time.
  rewrite (bool_decide_eq_false_2 (is_Some _)) by (rewrite Hv; by intros [? ?]).
  rewrite andb_false_r, bind_run. cbn [datetime_now].
  cbv beta iota. unfold datetime_minus. cbn [wall_usecs].
  rewrite get_millis_from_date_time_wall.
  unfold mret, M_ret. do 3 f_equal. lia.
Qed.

Lemma fetch_incidents_command_run (h : host) (client : Client) (st st0 : state)
    (start_time_millis : Z) :
  fetch_start_time h (last_run_store st) st = (inr start_time_millis, st0) →
  trace st0 = trace st →
  let end_time_millis := Z.quot (clock h (clock_reads st0)) 1000 in
  ∃ request_params : gmap string param,
    request_params !! "startDateUsecs" = Some (PInt (start_time_millis * 1000)) ∧
    request_params !! "endDateUsecs" = Some (PInt (end_time_millis * 1000)) ∧
    fetch_incidents_command h client st =
      let fetch := Http (GET "/mcm/alerts" request_params) in
      match alerts_api client request_params ≫= λ resp, filter_ransomware_alerts resp [] with
      | inl e =>
          (inl e,
           State (5 + next_oid st0) (S (clock_reads st0)) (last_run_store st0)
             (trace st ++ [fetch]))
      | inr ransomware_resp =>
          match create_incidents h ransomware_resp [] with
          | inl e =>
              (inl e,
               State (5 + next_oid st0) (S (clock_reads st0)) (last_run_store st0)
                 (trace st ++ [fetch]))
          | inr incidents =>
              (inr tt,
               State (5 + next_oid st0) (S (clock_reads st0))
                 {[ "start_time" := SInt end_time_millis ]}
                 (trace st ++
                    [fetch; SetLastRun {[ "start_time" := SInt end_time_millis ]};
                     PushIncidents incidents]))
          end
      end.
Proof.
  intros Hstart Htrace end_time_millis.
  unfold fetch_incidents_command.
  rewrite bind_run. cbn [getLastRun].
  rewrite bind_run, Hstart.
  rewrite bind_run, get_current_millis_run. fold end_time_millis.
  destruct (configured_max_fetch_run (demisto_params h)
              (State (next_oid st0) (S (clock_reads st0)) (last_run_store st0) (trace st0)))
    as (max_fetch & Hmax).
  rewrite bind_run, Hmax.
  edestruct (prepare_request_params_run (Some start_time_millis) (Some end_time_millis))
    as (request_params & Hprep & Hs & He & _).
  edestruct (get_ransomware_alerts_run client (Some start_time_millis)
               (Some end_time_millis))
    as (request_params' & Hprep' & Hrun).
  rewrite bind_run, Hrun. rewrite Hprep in Hprep'. injection Hprep' as <-.
  exists request_params. split; [exact Hs|]. split; [exact He|].
  cbv zeta. cbn [next_oid clock_reads last_run_store trace]. rewrite Htrace.
  destruct (alerts_api client request_params ≫= _) as [e|ransomware_resp]; [done|].
  rewrite lift_bind_run.
  destruct (create_incidents h ransomware_resp []) as [e|incidents]; [done|].
  rewrite bind_run. cbn [setLastRun demisto_incidents emit next_oid clock_reads
                          last_run_store trace].
  unfold demisto_incidents, emit. cbn [next_oid clock_reads last_run_store trace].
  by rewrite <- !app_assoc.
Qed.

(** C2 (amended): the fetch window of [fetch_incidents_command] starts at
    the stored watermark [start_time] when there is one and seven days
    before the clock reading otherwise, and ends at the (next) clock
    reading, both in milliseconds and sent as microseconds; and when the
    fetch succeeds, with however many alerts, and every fetched alert
    maps to an incident, the watermark is set to the end of the window
    before the incidents are pushed. *)
Theorem fetch_window_and_watermark (h : host) (client : Client) (st : state)
    (start_time_millis end_time_millis : Z) :
  let run := fetch_incidents_command h client st in
  let reads := clock_reads st in
  match last_run_store st !! "start_time" with
  | Some v =>
      py_int v = inr start_time_millis ∧
      end_time_millis = Z.quot (clock h reads) 1000
  | None =>
      start_time_millis = Z.quot (clock h reads - timedelta_days 7) 1000 ∧
      end_time_millis = Z.quot (clock h (S reads)) 1000
  end →
  ∃ request_params : gmap string param,
    request_params !! "startDateUsecs" = Some (PInt (start_time_millis * 1000)) ∧
    request_params !! "endDateUsecs" = Some (PInt (end_time_millis * 1000)) ∧
    (∃ later, trace run.2 = trace st ++ Http (GET "/mcm/alerts" request_params) :: later) ∧
    ∀ ransomware_resp incidents,
      (alerts_api client request_params ≫= λ resp, filter_ransomware_alerts resp [])
        = inr ransomware_resp →
      create_incidents h ransomware_resp [] = inr incidents →
      run.1 = inr tt ∧
      last_run_store run.2 = {[ "start_time" := SInt end_time_millis ]} ∧
      trace run.2 = trace st ++
        [Http (GET "/mcm/alerts" request_params);
         SetLastRun {[ "start_time" := SInt end_time_millis ]};
         PushIncidents incidents].
Proof.
  intros run reads Hwindow.
  assert (∃ st0,
    fetch_start_time h (last_run_store st) st = (inr start_time_millis, st0) ∧
    trace st0 = trace st ∧
    end_time_millis = Z.quot (clock h (clock_reads st0)) 1000) as (st0 & Hstart & Htrace & ->).
  { destruct (last_run_store st !! "start_time") as [v|] eqn:Hv;
      destruct Hwindow as [Hs ->].
    - exists st. by rewrite (fetch_start_time_stored h st v Hv), Hs.
    - eexists. rewrite (fetch_start_time_first_run h st Hv), Hs. done. }
  destruct (fetch_incidents_command_run h client st st0 start_time_millis Hstart Htrace)
    as (request_params & Hs & He & Hrun).
  exists request_params. split; [exact Hs|]. split; [exact He|].
  subst run. rewrite Hrun. cbv zeta. split.
  - destruct (alerts_api client request_params ≫= _) as [e|ransomware_resp];
      [by eexists|].
    destruct (create_incidents h ransomware_resp []); by eexists.
  - intros ransomware_resp incidents -> ->. done.
Qed.

(** ** The occurrence time of an incident *)

Lemma round_half_even_inject_Z (x : Q) (n : Z) :
  (x == inject_Z n)%Q → round_half_even x = n.
Proof.
  intros Hx. unfold round_half_even.
  rewrite (Qfloor_comp _ _ Hx), Qfloor_Z.
  assert (Hlt : (x - inject_Z n < 1 # 2)%Q) by (rewrite Hx; by ring_simplify).
  cbv zeta. by rewrite (proj1 (Qlt_alt _ _) Hlt).
Qed.

Lemma get_date_time_from_millis_usecs (offset usecs : Z) :
  get_date_time_from_millis offset (inject_Z usecs / 1000)%Q =
    let wall := usecs + offset * USECS_PER_SEC in
    if (MIN_WALL_USECS + MAX_FOLD_USECS <=? wall) && (wall <=? MAX_WALL_USECS)
    then inr (DateTime wall)
    else inl (ValueError "year is out of range").
Proof.
  unfold get_date_time_from_millis, fromtimestamp.
  rewrite (round_half_even_inject_Z _ usecs); [done|].
  unfold USECS_PER_SEC. field.
Qed.

(** The occurrence time is the reading of [latestTimestampUsecs] on the
    calendar of the host's zone, whatever that zone is. *)
Lemma create_ransomware_incident_occurred (h : host) (a : alert) (incident : Incident.t) :
  create_ransomware_incident h a = inr incident →
  Incident.occurred incident =
    strftime
      (DateTime (default 0 (latestTimestampUsecs a) + utc_offset h * USECS_PER_SEC))
      DATE_FORMAT.
Proof.
  unfold create_ransomware_incident.
  destruct (propertyList a) as [pl|]; cbn [getitem mbind result_bind]; [|done].
  destruct (_get_property_dict pl) as [e|property_dict]; cbn [mbind result_bind]; [done|].
  cbv zeta. rewrite get_date_time_from_millis_usecs. cbv zeta.
  destruct (_ && _); cbn [mbind result_bind]; [|done].
  destruct (alertDocument a) as [doc|]; cbn [getitem mbind result_bind]; [|done].
  destruct (alertName doc); cbn [getitem mbind result_bind]; [|done].
  destruct (alertDescription doc); cbn [getitem mbind result_bind]; [|done].
  destruct (alertCause doc); cbn [getitem mbind result_bind]; [|done].
  by intros [= <-].
Qed.

(** C7: the occurrence time of an incident is [latestTimestampUsecs] (0
    when absent) converted from microseconds and printed with second
    precision as %Y-%m-%dT%H:%M:%SZ; but the conversion goes through
    [datetime.fromtimestamp], the local time of the host, so on a host one
    hour east of UTC an alert without the field occurs at
    1970-01-01T01:00:00Z, where the UTC reading of the same instant is
    1970-01-01T00:00:00Z. *)
Theorem occurrence_time_is_host_local_time :
  (∃ incident,
     create_ransomware_incident host_cet alert_no_timestamp = inr incident ∧
     Incident.occurred incident = "1970-01-01T01:00:00Z") ∧
  (∃ incident,
     create_ransomware_incident host_utc alert_no_timestamp = inr incident ∧
     Incident.occurred incident = "1970-01-01T00:00:00Z") ∧
  (dt ← utcfromtimestamp 0; mret (strftime dt DATE_FORMAT))
    = inr "1970-01-01T00:00:00Z".
Proof.
  split; [|split].
  - eexists. split; [vm_compute; reflexivity|]. reflexivity.
  - eexists. split; [vm_compute; reflexivity|]. reflexivity.
  - vm_compute. reflexivity.
Qed.

(** ** The statements at the sample inputs *)

(** A sample alert has well-formed properties: every entry is inspected. *)
Ltac show_well_formed :=
  unfold well_formed_properties; eexists; split;
  [ reflexivity
  | repeat first
      [ apply Forall_nil_2 | apply Forall_cons_2; [split; eexists; reflexivity|] ] ].

Lemma property_dict_last_occurrence_wins_witness :
  ∃ property_dict,
    _get_property_dict
      (Some [Property "object" "vm-a"; Property "jobId" "7"; Property "object" "vm-b"])
      = inr property_dict ∧
    property_dict !! "object" = Some (Some "vm-b").
Proof.
  destruct (property_dict_last_occurrence_wins
              [("object", Some "vm-a"); ("jobId", Some "7"); ("object", Some "vm-b")])
    as (property_dict & Hreturns & _ & Hlast).
  exists property_dict. split; [exact Hreturns|].
  apply (Hlast [("object", Some "vm-a"); ("jobId", Some "7")] "object" (Some "vm-b") []).
  - reflexivity.
  - cbn. apply not_elem_of_nil.
Defined.

Lemma get_ransomware_alerts_keeps_ransomware_code_witness :
  (get_ransomware_alerts_default
     (sample_client [alert_vm_a; alert_other_code; alert_vm_b]) initial_state).1
  = inr [alert_vm_a; alert_vm_b].
Proof.
  pose proof (get_ransomware_alerts_keeps_ransomware_code
                (sample_client [alert_vm_a; alert_other_code; alert_vm_b])
                None None (PInt MAX_FETCH_DEFAULT)
                default_alert_ids default_alert_state_list default_alert_severity_list
                default_region_ids default_cluster_ids initial_state) as H.
  cbv zeta in H. destruct H as (request_params & _ & H).
  cbn [alerts_api sample_client] in H. destruct H as [_ H].
  unfold get_ransomware_alerts_default. rewrite H; [reflexivity|].
  repeat constructor; eexists; reflexivity.
Defined.

Lemma ignore_suppresses_first_match_witness :
  let client := sample_client [alert_vm_a; alert_vm_b] in
  let st1 := (get_ransomware_alerts_default client initial_state).2 in
  let run := ignore_ransomware_anomaly_command client args_vm_b initial_state in
  trace run.2 = trace st1 ++ [Http (suppress_request "2")] ∧
  run.1 = inr "Ignored object vm-b.".
Proof.
  intros client st1 run.
  assert (Hget : get_ransomware_alerts_default client initial_state =
                 (inr [alert_vm_a; alert_vm_b], st1)) by (vm_compute; reflexivity).
  pose proof (ignore_suppresses_first_match client args_vm_b initial_state st1
                [alert_vm_a; alert_vm_b] Hget) as H.
  cbv zeta in H. destruct H as [H _].
  apply (H [alert_vm_a] alert_vm_b [] "2").
  - reflexivity.
  - repeat constructor. show_well_formed.
  - repeat constructor.
  - reflexivity.
  - reflexivity.
  - discriminate.
Defined.

Lemma restore_selects_first_critical_open_match_witness :
  ∃ property_dict,
    _get_property_dict (Some (restore_props "vm-b")) = inr property_dict ∧
    restore_search [alert_vm_a; alert_bare_warning; alert_vm_b_resolved; alert_vm_b]
      (Some "vm-b") "" ∅ = inr ("2", property_dict).
Proof.
  set (fetched := [alert_vm_a; alert_bare_warning; alert_vm_b_resolved; alert_vm_b]).
  set (client := sample_client fetched).
  set (st1 := (get_ransomware_alerts_default client initial_state).2).
  assert (Hget : get_ransomware_alerts_default client initial_state = (inr fetched, st1))
    by (vm_compute; reflexivity).
  assert (Hd : ∃ property_dict, properties_of alert_vm_b = inr property_dict)
    by (apply properties_of_well_formed; show_well_formed).
  destruct Hd as (property_dict & Hd).
  exists property_dict. split; [exact Hd|].
  pose proof (restore_selects_first_critical_open_match host_utc client args_vm_b
                initial_state st1 _ Hget) as H.
  cbv zeta in H. destruct H as [H _].
  apply (H [alert_vm_a; alert_bare_warning; alert_vm_b_resolved] alert_vm_b []
           property_dict "2").
  - reflexivity.
  - repeat constructor.
    + exists "kWarning". split; [reflexivity | discriminate].
    + exists "kWarning". split; [reflexivity | discriminate].
    + exists "kCritical". split; [reflexivity|]. intros _.
      exists "kResolved". split; [reflexivity | discriminate].
  - reflexivity.
  - exact Hd.
  - reflexivity.
Defined.

Lemma no_match_raises_not_found_witness :
  let only_a := sample_client [alert_vm_a] in
  let resolved_b := sample_client [alert_bare_warning; alert_vm_b_resolved] in
  ignore_ransomware_anomaly_command only_a args_vm_b initial_state =
    (inl (ValueError
            "CohesityHelios error: no anomalous object found by the given name: vm-b. "),
     (get_ransomware_alerts_default only_a initial_state).2) ∧
  restore_latest_clean_snapshot host_utc resolved_b args_vm_b initial_state =
    (inl (ValueError
            "CohesityHelios error: no anomalous object found by the given name vm-b."),
     (get_ransomware_alerts_default resolved_b initial_state).2).
Proof.
  intros only_a resolved_b. split.
  - set (st1 := (get_ransomware_alerts_default only_a initial_state).2).
    assert (Hget : get_ransomware_alerts_default only_a initial_state =
                   (inr [alert_vm_a], st1)) by (vm_compute; reflexivity).
    destruct (no_match_raises_not_found host_utc only_a args_vm_b initial_state st1
                [alert_vm_a] "vm-b" Hget eq_refl) as (_ & H & _).
    apply H.
    + repeat constructor. show_well_formed.
    + repeat constructor.
  - set (st1 := (get_ransomware_alerts_default resolved_b initial_state).2).
    assert (Hget : get_ransomware_alerts_default resolved_b initial_state =
                   (inr [alert_bare_warning; alert_vm_b_resolved], st1))
      by (vm_compute; reflexivity).
    destruct (no_match_raises_not_found host_utc resolved_b args_vm_b initial_state st1
                [alert_bare_warning; alert_vm_b_resolved] "vm-b" Hget eq_refl) as (_ & _ & H).
    apply H. repeat constructor.
    + exists "kWarning". split; [reflexivity | discriminate].
    + exists "kCritical". split; [reflexivity|]. intros _.
      exists "kResolved". split; [reflexivity | discriminate].
Defined.

Lemma empty_display_guards_always_hold_witness :
  ∃ request_params : gmap string param,
    trace (get_ransomware_alerts_default (sample_client []) initial_state).2 =
      [Http (GET "/mcm/alerts" request_params)] ∧
    request_params !! "alertStateList" = Some (PList default_alert_state_list) ∧
    items default_alert_state_list = [].
Proof.
  pose proof (empty_display_guards_always_hold (sample_client [])
                None None (PInt MAX_FETCH_DEFAULT)
                default_alert_ids default_alert_state_list default_alert_severity_list
                default_region_ids default_cluster_ids initial_state) as H.
  cbv zeta in H.
  specialize (H ltac:(vm_compute; lia) ltac:(vm_compute; lia) ltac:(vm_compute; lia)
                ltac:(vm_compute; lia) ltac:(vm_compute; lia)).
  destruct H as (_ & request_params & Htrace & _ & Hstate & _).
  exists request_params. split; [exact Htrace|]. split; [exact Hstate | reflexivity].
Defined.

Lemma fetch_window_and_watermark_witness :
  let client := sample_client [alert_vm_a; alert_other_code] in
  let first := fetch_incidents_command host_utc client initial_state in
  let second := fetch_incidents_command host_utc client first.2 in
  (first.1 = inr tt ∧
   last_run_store first.2 = {[ "start_time" := SInt 1631471400001 ]}) ∧
  ∃ request_params : gmap string param,
    request_params !! "startDateUsecs" = Some (PInt (1631471400001 * 1000)) ∧
    request_params !! "endDateUsecs" = Some (PInt (1631471400002 * 1000)) ∧
    ∃ later, trace second.2 = trace first.2 ++ Http (GET "/mcm/alerts" request_params) :: later.
Proof.
  intros client first second. split.
  - pose proof (fetch_window_and_watermark host_utc client initial_state
                  1630866600000 1631471400001) as H.
    cbv zeta in H. fold first in H.
    destruct H as (request_params & _ & _ & _ & H); [vm_compute; split; reflexivity|].
    edestruct (H [alert_vm_a]) as (H1 & H2 & _); [reflexivity | reflexivity |].
    split; [exact H1 | exact H2].
  - pose proof (fetch_window_and_watermark host_utc client first.2
                  1631471400001 1631471400002) as H.
    cbv zeta in H. fold second in H.
    destruct H as (request_params & Hs & He & Hlater & _);
      [vm_compute; split; reflexivity|].
    exists request_params. split; [exact Hs|]. split; [exact He | exact Hlater].
Defined.

Lemma restore_resolves_only_after_recover_witness :
  (restore_latest_clean_snapshot host_utc (client_recover_fails [alert_vm_b])
     args_vm_b initial_state).1 = inl recover_refused ∧
  (restore_latest_clean_snapshot host_utc (client_patch_fails [alert_vm_b])
     args_vm_b initial_state).1 = inl patch_refused.
Proof.
  split.
  - pose proof (restore_resolves_only_after_recover host_utc
                  (client_recover_fails [alert_vm_b]) args_vm_b initial_state) as H.
    cbv zeta in H. destruct H as (events & Htrace & _ & H).
    assert (Hev : ∃ request_params headers payload,
      trace (restore_latest_clean_snapshot host_utc (client_recover_fails [alert_vm_b])
               args_vm_b initial_state).2 =
      trace initial_state ++
        [Http (GET "/mcm/alerts" request_params);
         Http (POST "/irisservices/api/v1/public/restore/recover" headers payload)])
      by (eexists _, _, _; vm_compute; reflexivity).
    destruct Hev as (request_params & headers & payload & Hev).
    rewrite Hev in Htrace. apply app_inv_head in Htrace. subst events.
    specialize (H _ headers payload ltac:(rewrite !elem_of_cons; auto)).
    cbn [recover_api client_recover_fails] in H. apply H.
  - pose proof (restore_resolves_only_after_recover host_utc
                  (client_patch_fails [alert_vm_b]) args_vm_b initial_state) as H.
    cbv zeta in H. destruct H as (events & Htrace & _ & H).
    assert (Hev : ∃ request_params headers payload,
      trace (restore_latest_clean_snapshot host_utc (client_patch_fails [alert_vm_b])
               args_vm_b initial_state).2 =
      trace initial_state ++
        [Http (GET "/mcm/alerts" request_params);
         Http (POST "/irisservices/api/v1/public/restore/recover" headers payload);
         Http (resolve_request "2")])
      by (eexists _, _, _; vm_compute; reflexivity).
    destruct Hev as (request_params & headers & payload & Hev).
    rewrite Hev in Htrace. apply app_inv_head in Htrace. subst events.
    specialize (H _ headers payload ltac:(rewrite !elem_of_cons; auto)).
    cbn [recover_api client_patch_fails] in H.
    destruct H as (alert_id & Hlast & H).
    unfold resolve_request in Hlast. simpl in Hlast.
    injection Hlast as Heq. apply (inj _) in Heq. subst alert_id.
    apply H. reflexivity.
Defined.

(** ** Alerts that lack a key *)

(** C2 (counterexample): the service answers the fetch with one ransomware
    alert that has no [propertyList]; the fetch succeeds, the incident
    mapping raises [KeyError], and the command ends with the GET request
    as its only effect: the watermark is not written. *)
Lemma fetch_watermark_needs_incident_mapping :
  let client := sample_client [alert_no_properties] in
  let run := fetch_incidents_command host_utc client initial_state in
  (get_ransomware_alerts client (Some 1630866600000) (Some 1631471400001)
     (PInt MAX_FETCH_DEFAULT) default_alert_ids default_alert_state_list
     default_alert_severity_list default_region_ids default_cluster_ids
     (State MODULE_OBJECTS 2 ∅ [])).1 = inr [alert_no_properties] ∧
  run.1 = inl (KeyError "propertyList") ∧
  last_run_store run.2 = ∅ ∧
  last_run_store run.2 ≠ {[ "start_time" := SInt 1631471400001 ]} ∧
  ∃ request_params, trace run.2 = [Http (GET "/mcm/alerts" request_params)].
Proof.
  intros client run.
  assert (Hstore : last_run_store run.2 = ∅) by (vm_compute; reflexivity).
  split; [vm_compute; reflexivity|].
  split; [vm_compute; reflexivity|].
  split; [exact Hstore|].
  split.
  - rewrite Hstore. intros Heq.
    apply (f_equal (fun m : gmap string scalar => m !! "start_time")) in Heq.
    by rewrite lookup_empty, lookup_singleton_eq in Heq.
  - eexists. vm_compute. reflexivity.
Qed.

(** C3 (counterexample): the first fetched alert has no [propertyList],
    the second is the first alert about vm-b; the ignore operation raises
    [KeyError] at the first alert and sends no suppress request. *)
Lemma ignore_stops_at_alert_without_properties :
  let fetched := [alert_no_properties; alert_vm_b] in
  let client := sample_client fetched in
  let run := ignore_ransomware_anomaly_command client args_vm_b initial_state in
  (get_ransomware_alerts_default client initial_state).1 = inr fetched ∧
  names_object (Some "vm-b") alert_no_properties = false ∧
  names_object (Some "vm-b") alert_vm_b = true ∧
  run.1 = inl (KeyError "propertyList") ∧
  ∃ request_params, trace run.2 = [Http (GET "/mcm/alerts" request_params)].
Proof.
  intros fetched client run. repeat split; try (vm_compute; reflexivity).
  eexists. vm_compute. reflexivity.
Qed.

(** C4 (counterexample): with the same fetched list the restore search
    raises [KeyError] at the first alert, so the second alert, the first
    that is critical, open and about vm-b, is not selected, and neither a
    recover nor a resolve request is sent. *)
Lemma restore_stops_at_alert_without_properties :
  let fetched := [alert_no_properties; alert_vm_b] in
  let client := sample_client fetched in
  let run := restore_latest_clean_snapshot host_utc client args_vm_b initial_state in
  (get_ransomware_alerts_default client initial_state).1 = inr fetched ∧
  restore_candidate (Some "vm-b") alert_no_properties = false ∧
  restore_candidate (Some "vm-b") alert_vm_b = true ∧
  restore_search fetched (Some "vm-b") "" ∅ = inl (KeyError "propertyList") ∧
  run.1 = inl (KeyError "propertyList") ∧
  ∃ request_params, trace run.2 = [Http (GET "/mcm/alerts" request_params)].
Proof.
  intros fetched client run. repeat split; try (vm_compute; reflexivity).
  eexists. vm_compute. reflexivity.
Qed.

(** C5 (counterexample): the only fetched alert has no [propertyList], so
    no alert is about vm-b; both operations raise [KeyError], not the
    not-found error. *)
Lemma no_match_raises_key_error :
  let fetched := [alert_no_properties] in
  let client := sample_client fetched in
  (get_ransomware_alerts_default client initial_state).1 = inr fetched ∧
  names_object (Some "vm-b") alert_no_properties = false ∧
  restore_candidate (Some "vm-b") alert_no_properties = false ∧
  (ignore_ransomware_anomaly_command client args_vm_b initial_state).1
    = inl (KeyError "propertyList") ∧
  (restore_latest_clean_snapshot host_utc client args_vm_b initial_state).1
    = inl (KeyError "propertyList").
Proof.
  intros fetched client. repeat split; vm_compute; reflexivity.
Qed.

(** An entry of a property list that lacks its value stops both scans in
    the same way: the flattener raises [KeyError] before the alert about
    vm-b is reached. *)
Lemma scans_stop_at_entry_without_value :
  let fetched := [alert_entry_without_value; alert_vm_b] in
  let client := sample_client fetched in
  (get_ransomware_alerts_default client initial_state).1 = inr fetched ∧
  (ignore_ransomware_anomaly_command client args_vm_b initial_state).1
    = inl (KeyError "value") ∧
  (restore_latest_clean_snapshot host_utc client args_vm_b initial_state).1
    = inl (KeyError "value").
Proof.
  intros fetched client. repeat split; vm_compute; reflexivity.
Qed.

(** * Further properties of the code *)

(** ** The property mapping of a concatenation *)

Lemma _get_property_dict_loop_union (l : list property) (d : gmap string (option string)) :
  _get_property_dict_loop l d = (_get_property_dict_loop l ∅ ≫= λ d', inr (d' ∪ d)).
Proof.
  induction l as [|p l IH] using rev_ind.
  - cbn. by rewrite (left_id ∅ (∪)).
  - rewrite !_get_property_dict_loop_app, IH.
    destruct (_get_property_dict_loop l ∅) as [e|d']; [done|]. cbn.
    unfold set_property.
    destruct (value p) as [v|]; [|done]. destruct (key p) as [k|]; [|done]. cbn.
    by rewrite insert_union_l.
Qed.

(** X1: flattening a concatenation of property lists flattens the first
    list, then the second, and gives the union of the two mappings in
    which the later list wins; it raises what the first failing list
    raises. *)
Theorem property_dict_app (l1 l2 : list property) :
  _get_property_dict (Some (l1 ++ l2)) =
    (d1 ← _get_property_dict (Some l1);
     d2 ← _get_property_dict (Some l2);
     mret (d2 ∪ d1)).
Proof.
  cbn. rewrite _get_property_dict_loop_app.
  destruct (_get_property_dict_loop l1 ∅) as [e|d1]; [done|]. cbn.
  apply _get_property_dict_loop_union.
Qed.

(** ** Severities *)

(** X2: [convert_to_demisto_severity_int] never yields MEDIUM or CRITICAL
    (kCritical is HIGH), and a missing severity is UNKNOWN. *)
Theorem severity_never_medium_or_critical (severity : option string) :
  convert_to_demisto_severity_int severity ≠ MEDIUM ∧
  convert_to_demisto_severity_int severity ≠ CRITICAL ∧
  convert_to_demisto_severity_int None = UNKNOWN.
Proof.
  destruct severity as [s|]; [|done]. cbn. unfold severity_table.
  rewrite !lookup_insert, lookup_singleton.
  repeat case_decide; done.
Qed.

(** ** From alerts to incidents *)


Lemma create_ransomware_incident_rawJSON (h : host) (a : alert) (incident : Incident.t) :
  create_ransomware_incident h a = inr incident → Incident.rawJSON incident = a.
Proof.
  unfold create_ransomware_incident.
  repeat (match goal with
          | |- context [getitem _ ?o] => destruct o; cbn [getitem mbind result_bind]
          | |- context [_get_property_dict ?pl] =>
              destruct (_get_property_dict pl); cbn [mbind result_bind]
          | |- context [get_date_time_from_millis ?x ?y] =>
              destruct (get_date_time_from_millis x y); cbn [mbind result_bind]
          end; try done).
  by intros [= <-].
Qed.

Lemma create_incidents_acc (h : host) (l : list alert) (acc incidents : list Incident.t) :
  create_incidents h l acc = inr incidents ↔
  ∃ new, incidents = acc ++ new ∧
         Forall2 (λ a incident, create_ransomware_incident h a = inr incident) l new.
Proof.
  revert acc. induction l as [|a l IH]; intros acc; cbn [create_incidents].
  - split.
    + intros [= <-]. exists []. by rewrite app_nil_r.
    + intros (new & -> & Hnew). apply Forall2_nil_inv_l in Hnew as ->.
      by rewrite app_nil_r.
  - destruct (create_ransomware_incident h a) as [e|incident] eqn:Ha;
      cbn [mbind result_bind].
    + split; [done|]. intros (new & _ & Hnew).
      apply Forall2_cons_inv_l in Hnew as (? & ? & ? & _). congruence.
    + rewrite IH. split.
      * intros (new & -> & Hnew). exists (incident :: new).
        split; [by rewrite <- app_assoc | by constructor].
      * intros (new & -> & Hnew).
        apply Forall2_cons_inv_l in Hnew as (incident' & new' & Hi & Hnew' & ->).
        assert (incident' = incident) as -> by congruence.
        exists new'. by rewrite <- app_assoc.
Qed.

(** X4: the mapping loop of [fetch_incidents_command] gives the incidents
    of the fetched alerts one for one and in order, each with its alert as
    raw payload, and gives none at all when one alert fails to map. *)
Theorem incidents_are_one_per_alert (h : host) (ransomware_resp : list alert) :
  (∀ incidents,
     create_incidents h ransomware_resp [] = inr incidents ↔
     Forall2 (λ a incident, create_ransomware_incident h a = inr incident)
       ransomware_resp incidents) ∧
  (∀ incidents,
     create_incidents h ransomware_resp [] = inr incidents →
     Incident.rawJSON <$> incidents = ransomware_resp).
Proof.
  assert (Hiff : ∀ incidents,
    create_incidents h ransomware_resp [] = inr incidents ↔
    Forall2 (λ a incident, create_ransomware_incident h a = inr incident)
      ransomware_resp incidents).
  { intros incidents. rewrite create_incidents_acc. split.
    - by intros (new & -> & Hnew).
    - intros Hnew. by exists incidents. }
  split; [exact Hiff|].
  intros incidents Hrun%Hiff. clear Hiff.
  induction Hrun as [|a incident l incidents Ha _ IH]; [done|].
  rewrite fmap_cons. by rewrite IH, (create_ransomware_incident_rawJSON h a incident Ha).
Qed.

(** ** The polling cycle as a whole *)

Lemma fetch_start_time_run (h : host) (st : state) :
  ∃ r st0,
    fetch_start_time h (last_run_store st) st = (r, st0) ∧
    trace st0 = trace st ∧ last_run_store st0 = last_run_store st.
Proof.
  destruct (last_run_store st !! "start_time") as [v|] eqn:Hv.
  - eexists _, _. by rewrite (fetch_start_time_stored h st v Hv).
  - eexists _, _. by rewrite (fetch_start_time_first_run h st Hv).
Qed.

(** X5: a polling cycle writes the watermark only after the fetch has
    returned and every fetched alert has been mapped: when the cycle
    stops before the request it has sent and stored nothing, and when the
    fetch raises, or the mapping of a fetched alert raises, the cycle
    raises that exception with the stored watermark as it was and with
    nothing sent or pushed beside the one GET request. *)
Theorem fetch_failure_keeps_watermark (h : host) (client : Client) (st : state) :
  let run := fetch_incidents_command h client st in
  (trace run.2 = trace st ∧ last_run_store run.2 = last_run_store st ∧ ∃ e, run.1 = inl e) ∨
  ∃ request_params : gmap string param,
    let fetched :=
      alerts_api client request_params ≫= λ resp, filter_ransomware_alerts resp [] in
    (∃ later, trace run.2 = trace st ++ Http (GET "/mcm/alerts" request_params) :: later) ∧
    (∀ e, fetched = inl e ∨
          (∃ ransomware_resp,
             fetched = inr ransomware_resp ∧ create_incidents h ransomware_resp [] = inl e) →
          run.1 = inl e ∧
          last_run_store run.2 = last_run_store st ∧
          trace run.2 = trace st ++ [Http (GET "/mcm/alerts" request_params)]).
Proof.
  intros run. subst run.
  destruct (fetch_start_time_run h st) as (r & st0 & Hstart & Htrace & Hstore).
  destruct r as [e|start_time_millis].
  - left. unfold fetch_incidents_command. rewrite bind_run. cbn [getLastRun].
    rewrite bind_run, Hstart. cbn [fst snd]. split; [done|]. split; [done | by exists e].
  - right.
    destruct (fetch_incidents_command_run h client st st0 start_time_millis Hstart Htrace)
      as (request_params & _ & _ & ->).
    exists request_params. cbv zeta. split.
    + destruct (alerts_api client request_params ≫= _) as [e|ransomware_resp];
        [by eexists|].
      destruct (create_incidents h ransomware_resp []); by eexists.
    + intros e [-> | (ransomware_resp & -> & ->)]; cbn [fst snd last_run_store trace]; done.
Qed.

(** X6: successive polling cycles leave no gap and no overlap: after a
    cycle that returned, the next cycle asks for a window that starts at
    the end of the window of that cycle. *)
Theorem consecutive_fetch_windows_are_contiguous (h : host) (client : Client) (st : state) :
  let first := fetch_incidents_command h client st in
  let second := fetch_incidents_command h client first.2 in
  first.1 = inr tt →
  ∃ request_params1 request_params2 end_time_millis later1 later2,
    trace first.2 = trace st ++ Http (GET "/mcm/alerts" request_params1) :: later1 ∧
    trace second.2 = trace first.2 ++ Http (GET "/mcm/alerts" request_params2) :: later2 ∧
    request_params1 !! "endDateUsecs" = Some (PInt (end_time_millis * 1000)) ∧
    request_params2 !! "startDateUsecs" = Some (PInt (end_time_millis * 1000)).
Proof.
  intros first second Hfirst.
  assert (∃ request_params1 end_time_millis later1,
    trace first.2 = trace st ++ Http (GET "/mcm/alerts" request_params1) :: later1 ∧
    request_params1 !! "endDateUsecs" = Some (PInt (end_time_millis * 1000)) ∧
    last_run_store first.2 = {[ "start_time" := SInt end_time_millis ]})
    as (request_params1 & end_time_millis & later1 & Htrace1 & Hend1 & Hstore1).
  { subst first second.
    destruct (fetch_start_time_run h st) as (r & st0 & Hstart & Htrace & Hstore).
    destruct r as [e|start_time_millis].
    - unfold fetch_incidents_command in Hfirst. rewrite bind_run in Hfirst.
      cbn [getLastRun] in Hfirst. by rewrite bind_run, Hstart in Hfirst.
    - destruct (fetch_incidents_command_run h client st st0 start_time_millis Hstart Htrace)
        as (request_params & _ & Hend & Hrun).
      rewrite Hrun in Hfirst |- *. cbv zeta in Hfirst |- *.
      destruct (alerts_api client request_params ≫= _) as [e|ransomware_resp]; [done|].
      destruct (create_incidents h ransomware_resp []) as [e|incidents]; [done|].
      by eexists _, _, _. }
  assert (Hstored : last_run_store first.2 !! "start_time" = Some (SInt end_time_millis))
    by (by rewrite Hstore1, lookup_singleton_eq).
  pose proof (fetch_start_time_stored h first.2 _ Hstored) as Hstart2. cbn [py_int] in Hstart2.
  destruct (fetch_incidents_command_run h client first.2 first.2 end_time_millis Hstart2 eq_refl)
    as (request_params2 & Hstart & _ & Hrun).
  exists request_params1, request_params2, end_time_millis, later1.
  subst second. rewrite Hrun. cbv zeta.
  destruct (alerts_api client request_params2 ≫= _) as [e|ransomware_resp];
    [by eexists|].
  destruct (create_incidents h ransomware_resp []) as [e|incidents]; by eexists.
Qed.

Lemma consecutive_fetch_windows_are_contiguous_witness :
  let client := sample_client [alert_vm_a; alert_other_code] in
  let first := fetch_incidents_command host_cet client initial_state in
  let second := fetch_incidents_command host_cet client first.2 in
  ∃ request_params1 request_params2 end_time_millis later1 later2,
    trace first.2 = trace initial_state ++ Http (GET "/mcm/alerts" request_params1) :: later1 ∧
    trace second.2 = trace first.2 ++ Http (GET "/mcm/alerts" request_params2) :: later2 ∧
    request_params1 !! "endDateUsecs" = Some (PInt (end_time_millis * 1000)) ∧
    request_params2 !! "startDateUsecs" = Some (PInt (end_time_millis * 1000)).
Proof.
  intros client first second.
  apply (consecutive_fetch_windows_are_contiguous host_cet client initial_state).
  vm_compute. reflexivity.
Defined.

(** ** What every alert request carries *)

Lemma prepare_request_params_fixed start_time_millis end_time_millis max_fetch
    alert_ids alert_state_list alert_severity_list region_ids cluster_ids st :
  ∃ request_params : gmap string param,
    prepare_request_params start_time_millis end_time_millis max_fetch
      alert_ids alert_state_list alert_severity_list region_ids cluster_ids st =
      (inr request_params,
       State (5 + next_oid st) (clock_reads st) (last_run_store st) (trace st)) ∧
    request_params !! "alertCategoryList" = Some (PStr "kSecurity") ∧
    request_params !! "_includeTenantInfo" = Some (PBool true).
Proof.
  unfold prepare_request_params. cbv zeta.
  match goal with
  | |- context [set_if_is_not_empty_display "alertIdList" _ ?r] => set (rp0 := r)
  end.
  edestruct (set_if_is_not_empty_display_run "alertIdList" alert_ids rp0)
    as (rp1 & E1 & O1 & _).
  rewrite bind_run, E1; cbv beta iota.
  edestruct (set_if_is_not_empty_display_run "alertStateList" alert_state_list rp1)
    as (rp2 & E2 & O2 & _).
  rewrite bind_run, E2; cbv beta iota.
  edestruct (set_if_is_not_empty_display_run "alertSeverityList" alert_severity_list rp2)
    as (rp3 & E3 & O3 & _).
  rewrite bind_run, E3; cbv beta iota.
  edestruct (set_if_is_not_empty_display_run "region_ids" region_ids rp3)
    as (rp4 & E4 & O4 & _).
  rewrite bind_run, E4; cbv beta iota.
  edestruct (set_if_is_not_empty_display_run "clusterIdentifiers" cluster_ids rp4)
    as (rp5 & E5 & O5 & _).
  rewrite bind_run, E5; cbv beta iota.
  clear E1 E2 E3 E4 E5. cbn [next_oid clock_reads last_run_store trace].
  exists rp5. split; [reflexivity|].
  split; rewrite O5, O4, O3, O2, O1 by done; subst rp0;
    destruct start_time_millis, end_time_millis;
    by repeat (rewrite ?lookup_insert_eq; rewrite ?lookup_insert_ne by done).
Qed.

(** X7: a call of [Client.get_ransomware_alerts] sends exactly one
    request, a GET of /mcm/alerts that asks for the security category
    with tenant information and the given bound on the number of alerts;
    a time bound in milliseconds is sent in microseconds, and a bound
    that is not given is not sent. *)
Theorem alert_request_fixed_parameters self start_time_millis end_time_millis max_fetch
    alert_ids alert_state_list alert_severity_list region_ids cluster_ids st :
  let run := get_ransomware_alerts self start_time_millis end_time_millis max_fetch
               alert_ids alert_state_list alert_severity_list region_ids cluster_ids st in
  ∃ request_params : gmap string param,
    trace run.2 = trace st ++ [Http (GET "/mcm/alerts" request_params)] ∧
    request_params !! "alertCategoryList" = Some (PStr "kSecurity") ∧
    request_params !! "_includeTenantInfo" = Some (PBool true) ∧
    request_params !! "maxAlerts" = Some max_fetch ∧
    request_params !! "startDateUsecs" = (λ t, PInt (t * 1000)) <$> start_time_millis ∧
    request_params !! "endDateUsecs" = (λ t, PInt (t * 1000)) <$> end_time_millis.
Proof.
  intros run. subst run.
  destruct (prepare_request_params_fixed start_time_millis end_time_millis max_fetch
    alert_ids alert_state_list alert_severity_list region_ids cluster_ids st)
    as (request_params & Hprep & Hcat & Htenant).
  destruct (prepare_request_params_run start_time_millis end_time_millis max_fetch
    alert_ids alert_state_list alert_severity_list region_ids cluster_ids st)
    as (rp' & Hprep' & Hs & He & Hmax & _).
  rewrite Hprep in Hprep'. injection Hprep' as <-.
  destruct (get_ransomware_alerts_run self start_time_millis end_time_millis max_fetch
    alert_ids alert_state_list alert_severity_list region_ids cluster_ids st)
    as (rp' & Hprep' & Hrun).
  rewrite Hprep in Hprep'. injection Hprep' as <-.
  exists request_params. rewrite Hrun. done.
Qed.

(** X8: the ignore and the restore command look for the object in one
    fetch without a time window and with the default bound of 20 alerts:
    the first request of either command has [maxAlerts] 20 and neither
    [startDateUsecs] nor [endDateUsecs]. *)
Theorem remediation_fetch_is_unwindowed_and_bounded (h : host) (client : Client)
    (args : gmap string string) (st : state) :
  let unwindowed (st' : state) :=
    ∃ (request_params : gmap string param) later,
      trace st' = trace st ++ Http (GET "/mcm/alerts" request_params) :: later ∧
      request_params !! "maxAlerts" = Some (PInt 20) ∧
      request_params !! "startDateUsecs" = None ∧
      request_params !! "endDateUsecs" = None in
  unwindowed (ignore_ransomware_anomaly_command client args st).2 ∧
  unwindowed (restore_latest_clean_snapshot h client args st).2.
Proof.
  intros unwindowed. subst unwindowed. cbv beta.
  destruct (prepare_request_params_run None None (PInt MAX_FETCH_DEFAULT)
    default_alert_ids default_alert_state_list default_alert_severity_list
    default_region_ids default_cluster_ids st)
    as (request_params & Hprep & Hs & He & Hmax & _).
  destruct (get_ransomware_alerts_run client None None (PInt MAX_FETCH_DEFAULT)
    default_alert_ids default_alert_state_list default_alert_severity_list
    default_region_ids default_cluster_ids st)
    as (rp' & Hprep' & Hget).
  rewrite Hprep in Hprep'. injection Hprep' as <-.
  fold (get_ransomware_alerts_default client) in Hget.
  split.
  - exists request_params.
    rewrite (ignore_ransomware_anomaly_command_run _ _ _ _ _ Hget).
    match goal with
    | |- context [match ?r with inl _ => _ | inr _ => _ end] =>
        destruct r as [e|alert_id]; [by exists []|]
    end.
    destruct (decide (alert_id = Some "")); [by exists []|].
    destruct alert_id as [i|]; [|by exists []].
    eexists. cbn [snd trace]. by rewrite <- app_assoc.
  - exists request_params.
    rewrite (restore_latest_clean_snapshot_run _ _ _ _ _ _ Hget).
    match goal with
    | |- context [match ?r with inl _ => _ | inr _ => _ end] =>
        destruct r as [e|[alert_id restore_properties]]; [by exists []|]
    end.
    destruct (decide (alert_id = "")); [by exists []|].
    edestruct (restore_request_payload_run h restore_properties)
      as (r & st2 & Hpayload & Htrace & _).
    rewrite Hpayload. cbn [trace] in Htrace.
    destruct r as [e|request_payload]; [exists []; cbn [snd]; by rewrite Htrace|].
    destruct (getitem "cid" _) as [e|cluster_id]; [exists []; cbn [snd]; by rewrite Htrace|].
    cbv zeta.
    destruct (recover_api client _ request_payload) as [e|[]]; cbn [snd trace];
      rewrite Htrace, <- ?app_assoc; by eexists.
Qed.

(** ** Edge cases of the ignore command *)

(** X9: the id of the matched alert decides how the ignore command ends
    when it is not a proper id: with the empty string as id the command
    reports that no object was found although an alert matched, and
    without an id it fails with [TypeError] when it builds the address;
    in both cases no suppress request is sent. *)
Theorem ignore_match_without_proper_id (client : Client) (args : gmap string string)
    (st st1 : state) (pre : list alert) (a : alert) (post : list alert) :
  get_ransomware_alerts_default client st = (inr (pre ++ a :: post), st1) →
  Forall well_formed_properties pre →
  Forall (λ b, names_object (args !! "object_name") b = false) pre →
  names_object (args !! "object_name") a = true →
  (id a = Some "" →
   ignore_ransomware_anomaly_command client args st =
     (inl (ValueError
             ("CohesityHelios error: no anomalous object found by the given name: "
                +:+ py_str (args !! "object_name") +:+ ". ")), st1)) ∧
  (id a = None →
   ∃ msg, ignore_ransomware_anomaly_command client args st = (inl (TypeError msg), st1)).
Proof.
  intros Hget Hkeys Hnone Ha.
  rewrite (ignore_ransomware_anomaly_command_run _ _ _ _ _ Hget).
  cbn [mbind result_bind]. rewrite ignore_search_first by done.
  split; intros ->; [by rewrite decide_True | rewrite decide_False by done; by eexists].
Qed.

Lemma _get_property_dict_loop_lookup (l : list property) (d d' : gmap string (option string))
    (k : string) (v : option string) :
  _get_property_dict_loop l d = inr d' →
  d' !! k = Some v →
  d !! k = Some v ∨ MkProperty (Some k) (Some v) ∈ l.
Proof.
  revert d. induction l as [|p l IH]; intros d; cbn.
  - intros [= <-] Hk. by left.
  - unfold set_property. destruct p as [[k1|] [v1|]]; cbn; try done.
    intros Hloop Hk. destruct (IH _ Hloop Hk) as [Hd|Hin].
    + destruct (decide (k1 = k)) as [->|Hne].
      * rewrite lookup_insert_eq in Hd. injection Hd as ->. right. apply elem_of_cons. by left.
      * rewrite lookup_insert_ne in Hd by done. by left.
    + right. apply elem_of_cons. by right.
Qed.

(** X10: without the argument [object_name] the requested name is
    [None], which only a null [object] value equals: when no fetched
    alert has the entry [object] with value null, the ignore command
    raises and sends no request after the fetch, whatever else was
    fetched. *)
Theorem ignore_without_object_name_suppresses_nothing (client : Client)
    (args : gmap string string) (st st1 : state) (fetched : list alert) :
  get_ransomware_alerts_default client st = (inr fetched, st1) →
  args !! "object_name" = None →
  Forall (λ b, ∀ l, propertyList b = Some (Some l) →
                    MkProperty (Some "object") (Some None) ∉ l) fetched →
  ∃ e, ignore_ransomware_anomaly_command client args st = (inl e, st1).
Proof.
  intros Hget Hname Hnull.
  rewrite (ignore_ransomware_anomaly_command_run _ _ _ _ _ Hget), Hname.
  cbn [mbind result_bind].
  destruct (ignore_search fetched None (Some "")) as [e|found] eqn:Hsearch; [by eexists|].
  apply ignore_search_sound in Hsearch
    as [[-> _] | (pre & a & post & -> & _ & _ & Ha & _)].
  - rewrite decide_True by done. by eexists.
  - apply Forall_app in Hnull as [_ [Hnull _]%Forall_cons].
    unfold names_object, properties_of in Ha.
    destruct (propertyList a) as [[l|]|]; cbn in Ha; try done.
    destruct (_get_property_dict_loop l ∅) as [e|d] eqn:Hd; [done|].
    unfold eq_object_name in Ha. apply bool_decide_eq_true in Ha.
    destruct (d !! "object") as [v|] eqn:Hv; cbn in Ha; [subst v | done].
    destruct (_get_property_dict_loop_lookup l ∅ d "object" None Hd Hv) as [Hempty|Hin];
      [by rewrite lookup_empty in Hempty|].
    by destruct (Hnull l eq_refl).
Qed.

(** ** The restore request *)

(** The payload of a restore, spelled out. *)
Lemma restore_request_payload_inr (h : host) (restore_properties : gmap string (option string))
    (st st2 : state) (payload : RestoreRequest.t) :
  restore_request_payload h restore_properties st = (inr payload, st2) ↔
  ∃ object jobId jobRunId startedTimeUsecs protectionSourceId,
    restore_properties !! "object" = Some (Some object) ∧
    (getitem "jobId" (restore_properties !! "jobId") ≫= py_int_of_value) = inr jobId ∧
    (getitem "jobInstanceId" (restore_properties !! "jobInstanceId") ≫= py_int_of_value)
      = inr jobRunId ∧
    (getitem "jobStartTimeUsecs" (restore_properties !! "jobStartTimeUsecs")
       ≫= py_int_of_value) = inr startedTimeUsecs ∧
    (getitem "entityId" (restore_properties !! "entityId") ≫= py_int_of_value)
      = inr protectionSourceId ∧
    payload =
      RestoreRequest.Make
        ("Cortex_XSOAR_triggered_restore_task_" +:+ object)
        "kRecoverVMs"
        (RestoreRequest.VmwareParameters true "Recover-"
           ("-VM-" +:+ str_of_int (Z.quot (clock h (clock_reads st)) 1000)))
        [RestoreRequest.RestoreObject jobId jobRunId startedTimeUsecs (Some object)
           protectionSourceId] ∧
    st2 = State (next_oid st) (S (clock_reads st)) (last_run_store st) (trace st).
Proof.
  unfold restore_request_payload.
  rewrite lift_bind_run.
  destruct (restore_properties !! "object") as [[object|]|]; cbn [getitem mbind result_bind py_concat];
    [|split; [done | by intros (? & ? & ? & ? & ? & ? & _)]
     |split; [done | by intros (? & ? & ? & ? & ? & ? & _)]].
  rewrite bind_run, get_current_millis_run.
  rewrite lift_bind_run.
  destruct (getitem "jobId" _ ≫= _) as [e|jobId];
    [split; [done | by intros (? & ? & ? & ? & ? & _ & ? & _)]|].
  rewrite lift_bind_run.
  destruct (getitem "jobInstanceId" _ ≫= _) as [e|jobRunId];
    [split; [done | by intros (? & ? & ? & ? & ? & _ & _ & ? & _)]|].
  rewrite lift_bind_run.
  destruct (getitem "jobStartTimeUsecs" _ ≫= _) as [e|startedTimeUsecs];
    [split; [done | by intros (? & ? & ? & ? & ? & _ & _ & _ & ? & _)]|].
  rewrite lift_bind_run. cbv beta iota. rewrite lift_bind_run.
  destruct (getitem "entityId" _ ≫= _) as [e|protectionSourceId];
    [split; [done | by intros (? & ? & ? & ? & ? & _ & _ & _ & _ & ? & _)]|].
  split.
  - intros [= <- <-]. by eexists _, _, _, _, _.
  - intros (? & ? & ? & ? & ? & [= <-] & [= <-] & [= <-] & [= <-] & [= <-] & -> & ->).
    done.
Qed.

(** X11: two restore payloads built from the same properties are equal
    exactly when [get_current_millis] reads the same at both: only the
    name suffix, which embeds that reading, tells them apart. *)
Theorem restore_payloads_differ_by_time_only (h : host)
    (restore_properties : gmap string (option string)) (sta sta' stb stb' : state)
    (payload_a payload_b : RestoreRequest.t) :
  restore_request_payload h restore_properties sta = (inr payload_a, sta') →
  restore_request_payload h restore_properties stb = (inr payload_b, stb') →
  (payload_a = payload_b ↔ (get_current_millis h sta).1 = (get_current_millis h stb).1) ∧
  RestoreRequest.objects payload_a = RestoreRequest.objects payload_b ∧
  RestoreRequest.name payload_a = RestoreRequest.name payload_b.
Proof.
  intros (oa & ja & ra & sa & ea & Hoa & Hja & Hra & Hsa & Hea & -> & _)%restore_request_payload_inr
         (ob & jb & rb & sb & eb & Hob & Hjb & Hrb & Hsb & Heb & -> & _)%restore_request_payload_inr.
  assert (oa = ob) as -> by congruence.
  assert (ja = jb) as -> by congruence.
  assert (ra = rb) as -> by congruence.
  assert (sa = sb) as -> by congruence.
  assert (ea = eb) as -> by congruence.
  rewrite !get_current_millis_run. cbn [fst].
  split; [|done]. split.
  - intros [= Hsuffix]. apply (inj _) in Hsuffix. unfold str_of_int in Hsuffix.
    apply (inj _) in Hsuffix. by rewrite Hsuffix.
  - by intros [= ->].
Qed.

(** X12: when the restore command has selected an alert but cannot build
    the request (the payload raises, or the property [cid] is absent), it
    raises that exception and sends nothing after the fetch: no recover
    and no resolve request; and with the empty string as id of the
    selected alert it reports that no object was found. *)
Theorem restore_sends_nothing_without_full_request (h : host) (client : Client)
    (args : gmap string string) (st st1 : state)
    (pre : list alert) (a : alert) (post : list alert)
    (property_dict : gmap string (option string)) (i : string) :
  get_ransomware_alerts_default client st = (inr (pre ++ a :: post), st1) →
  Forall (restore_skips (args !! "object_name")) pre →
  restore_candidate (args !! "object_name") a = true →
  properties_of a = inr property_dict →
  id a = Some i →
  let run := restore_latest_clean_snapshot h client args st in
  let built := restore_request_payload h property_dict st1 in
  (i = "" →
   run = (inl (ValueError
                 ("CohesityHelios error: no anomalous object found by the given name "
                    +:+ py_str (args !! "object_name") +:+ ".")), st1)) ∧
  (i ≠ "" → ∀ e, built.1 = inl e → run.1 = inl e ∧ trace run.2 = trace st1) ∧
  (i ≠ "" → ∀ payload, built.1 = inr payload → property_dict !! "cid" = None →
   run.1 = inl (KeyError "cid") ∧ trace run.2 = trace st1).
Proof.
  intros Hget Hskips Ha Hd Hid run built. subst run built.
  rewrite (restore_latest_clean_snapshot_run _ _ _ _ _ _ Hget).
  cbn [mbind result_bind].
  rewrite (restore_search_first _ _ _ _ _ _ property_dict) by done. rewrite Hid.
  cbn [getitem mbind result_bind mret result_ret].
  destruct (restore_request_payload_run h property_dict st1)
    as (r & st2 & Hpayload & Htrace & _).
  rewrite Hpayload. cbn [fst].
  split; [|split].
  - intros ->. by rewrite decide_True.
  - intros Hi e ->. by rewrite decide_False.
  - intros Hi payload -> Hcid. rewrite decide_False by done. by rewrite Hcid.
Qed.

(** X13: the restore of a well-formed alert: when the selected alert has
    a non-empty id, the request can be built and the service accepts the
    recover request, the command sends, after the fetch, the recover
    request with the cluster id of the alert as header [clusterid] beside
    the client's own headers, then the resolve request for the alert, and
    ends as the resolve request ends. *)
Theorem restore_recovers_then_resolves (h : host) (client : Client)
    (args : gmap string string) (st st1 st2 : state)
    (pre : list alert) (a : alert) (post : list alert)
    (property_dict : gmap string (option string))
    (i : string) (cluster_id : option string) (payload : RestoreRequest.t) :
  get_ransomware_alerts_default client st = (inr (pre ++ a :: post), st1) →
  Forall (restore_skips (args !! "object_name")) pre →
  restore_candidate (args !! "object_name") a = true →
  properties_of a = inr property_dict →
  id a = Some i →
  i ≠ "" →
  restore_request_payload h property_dict st1 = (inr payload, st2) →
  property_dict !! "cid" = Some cluster_id →
  let headers := <["clusterid" := cluster_id]> (_headers client) in
  recover_api client headers payload = inr tt →
  let run := restore_latest_clean_snapshot h client args st in
  trace run.2 = trace st1 ++
    [Http (POST "/irisservices/api/v1/public/restore/recover" headers payload);
     Http (resolve_request i)] ∧
  run.1 = (patch_api client ("/mcm/alerts/" +:+ i) {[ "status" := "kResolved" ]}
             ≫= λ _, inr ("Restored object " +:+ py_str (args !! "object_name") +:+ ".")) ∧
  headers !! "clusterid" = Some cluster_id ∧
  (∀ k, k ≠ "clusterid" → headers !! k = _headers client !! k) ∧
  RestoreRequest.objects payload ≠ [] ∧
  (∀ o, o ∈ RestoreRequest.objects payload →
        RestoreRequest.sourceName o = args !! "object_name").
Proof.
  intros Hget Hskips Ha Hd Hid Hi Hpayload Hcid headers Hrecover run.
  subst run.
  rewrite (restore_latest_clean_snapshot_run _ _ _ _ _ _ Hget).
  cbn [mbind result_bind].
  rewrite (restore_search_first _ _ _ _ _ _ property_dict) by done. rewrite Hid.
  cbn [getitem mbind result_bind mret result_ret].
  rewrite decide_False by done. rewrite Hpayload, Hcid. cbn [getitem]. cbv zeta.
  fold headers. rewrite Hrecover. cbn [fst snd trace].
  apply restore_request_payload_inr in Hpayload
    as (object & ? & ? & ? & ? & Hobject & _ & _ & _ & _ & -> & ->).
  cbn [trace]. rewrite <- app_assoc. split; [done|]. split; [done|].
  split; [by subst headers; rewrite lookup_insert_eq|].
  split; [intros k Hk; subst headers; by rewrite lookup_insert_ne|].
  split; [done|].
  intros o Ho. cbn in Ho. apply list_elem_of_singleton in Ho as ->. cbn.
  unfold restore_candidate in Ha. apply andb_true_iff in Ha as [_ Hname].
  unfold names_object in Hname. rewrite Hd in Hname.
  unfold eq_object_name in Hname.
  apply bool_decide_eq_true in Hname. by rewrite Hobject in Hname.
Qed.

(** ** Alert details *)


(** X15: what the two mappers of an alert give agrees: for an alert that
    both map, the details and the incident show the same occurrence
    time, id, description, cause, object, environment and anomaly
    strength, and the incident's severity is the mapped severity of the
    details. *)
Theorem alert_details_agree_with_incident (h : host) (a : alert)
    (details : AlertDetails.t) (incident : Incident.t) :
  get_ransomware_alert_details h a = inr details →
  create_ransomware_incident h a = inr incident →
  AlertDetails.occurrence_time details = Incident.occurred incident ∧
  Some (AlertDetails.alert_id details) = Incident.event_id incident ∧
  convert_to_demisto_severity_int (AlertDetails.severity details)
    = Incident.severity incident ∧
  let fields := Incident.CustomFields incident in
  AlertDetails.alert_description details = Incident.alert_description fields ∧
  AlertDetails.alert_cause details = Incident.alert_cause fields ∧
  AlertDetails.anomalous_object_name details = Incident.anomalous_object fields ∧
  AlertDetails.anomalous_object_env details = Incident.environment fields ∧
  AlertDetails.anomaly_strength details = Incident.anomaly_strength fields.
Proof.
  unfold get_ransomware_alert_details, create_ransomware_incident.
  destruct (propertyList a) as [pl|]; cbn [getitem mbind result_bind]; [|done].
  destruct (_get_property_dict pl) as [e|property_dict]; cbn [mbind result_bind]; [done|].
  cbv zeta.
  destruct (get_date_time_from_millis _ _) as [e|dt]; cbn [mbind result_bind]; [done|].
  destruct (id a) as [i|]; cbn [getitem mbind result_bind]; [|done].
  destruct (alertDocument a) as [doc|]; cbn [getitem mbind result_bind]; [|done].
  destruct (alertDescription doc); cbn [getitem mbind result_bind];
    [|by destruct (alertName doc)].
  destruct (alertCause doc); cbn [getitem mbind result_bind];
    [|by destruct (alertName doc)].
  destruct (alertName doc); cbn [getitem mbind result_bind]; [|done].
  by intros [= <-] [= <-].
Qed.

Lemma alert_details_agree_with_incident_witness :
  ∃ details incident,
    get_ransomware_alert_details host_cet alert_vm_b = inr details ∧
    create_ransomware_incident host_cet alert_vm_b = inr incident ∧
    AlertDetails.occurrence_time details = Incident.occurred incident ∧
    Incident.occurred incident = "2021-09-12T19:31:40Z".
Proof.
  eexists _, _.
  split; [vm_compute; reflexivity|]. split; [vm_compute; reflexivity|].
  split; [|vm_compute; reflexivity].
  eapply (alert_details_agree_with_incident host_cet alert_vm_b);
    vm_compute; reflexivity.
Defined.

(** ** The command that lists the alerts *)

(** X16: [datestring_to_millis] keeps whole seconds only: for a date
    string that parses it gives the epoch milliseconds of the datetime
    with the part below a second cut off, a multiple of 1000; for a
    string that does not parse it gives [None]. *)
Theorem datestring_to_millis_whole_seconds (h : host)
    (parse : string → option datetime) (ds : string) :
  datestring_to_millis h parse ds =
    (λ dt, Z.quot (get_millis_from_date_time (utc_offset h) dt) 1000 * 1000) <$> parse ds ∧
  (∀ millis, datestring_to_millis h parse ds = Some millis → Z.rem millis 1000 = 0).
Proof.
  assert (Heq : datestring_to_millis h parse ds =
    (λ dt, Z.quot (get_millis_from_date_time (utc_offset h) dt) 1000 * 1000) <$> parse ds).
  { unfold datestring_to_millis. destruct (parse ds) as [[wall]|]; [|done]. cbn.
    rewrite get_millis_from_date_time_wall. cbn [wall_usecs].
    unfold py_int_of_float, timestamp. cbn.
    rewrite Z.quot_quot by done. done. }
  split; [exact Heq|].
  intros millis. rewrite Heq. destruct (parse ds); [|done]. cbn.
  intros [= <-]. by rewrite Z.rem_mul.
Qed.

Lemma argToList_run (argToList_items : string → list string) (arg : option string)
    (st : state) :
  ∃ l st',
    argToList argToList_items arg st = (inr l, st') ∧
    items l = from_option argToList_items [] arg ∧
    (oid l < next_oid st')%nat ∧ (next_oid st ≤ next_oid st')%nat ∧
    clock_reads st' = clock_reads st ∧ last_run_store st' = last_run_store st ∧
    trace st' = trace st.
Proof.
  destruct arg as [s|]; cbn [argToList].
  - eexists _, _. split; [reflexivity|]. cbn. repeat split; lia.
  - eexists _, _. rewrite bind_run. cbn [new_list]. split; [reflexivity|].
    cbn. repeat split; lia.
Qed.

Lemma parse_alert_details_acc (h : host) (l : list alert)
    (acc ransomware_alerts : list AlertDetails.t) :
  parse_alert_details h l acc = inr ransomware_alerts ↔
  ∃ new, ransomware_alerts = acc ++ new ∧
         Forall2 (λ a details, get_ransomware_alert_details h a = inr details) l new.
Proof.
  revert acc. induction l as [|a l IH]; intros acc; cbn [parse_alert_details].
  - split.
    + intros [= <-]. exists []. by rewrite app_nil_r.
    + intros (new & -> & Hnew). apply Forall2_nil_inv_l in Hnew as ->.
      by rewrite app_nil_r.
  - destruct (get_ransomware_alert_details h a) as [e|details] eqn:Ha;
      cbn [mbind result_bind].
    + split; [done|]. intros (new & _ & Hnew).
      apply Forall2_cons_inv_l in Hnew as (? & ? & ? & _). congruence.
    + rewrite IH. split.
      * intros (new & -> & Hnew). exists (details :: new).
        split; [by rewrite <- app_assoc | by constructor].
      * intros (new & -> & Hnew).
        apply Forall2_cons_inv_l in Hnew as (details' & new' & Hi & Hnew' & ->).
        assert (details' = details) as -> by congruence.
        exists new'. by rewrite <- app_assoc.
Qed.

Lemma get_ransomware_alerts_command_run (h : host) (parse : string → option datetime)
    (argToList_items : string → list string) (client : Client)
    (args : gmap string string) (st : state) :
  ∃ (severity_list ids_list : pylist) (st2 : state) (request_params : gmap string param),
    items severity_list = from_option argToList_items [] (args !! "alert_severity_list") ∧
    items ids_list = from_option argToList_items [] (args !! "alert_id_list") ∧
    (oid severity_list < next_oid st2)%nat ∧ (oid ids_list < next_oid st2)%nat ∧
    (next_oid st ≤ next_oid st2)%nat ∧
    prepare_request_params
      (datestring_to_millis h parse (default "" (args !! "created_after")))
      (datestring_to_millis h parse (default "" (args !! "created_before")))
      (match args !! "limit" with Some s => PStr s | None => PInt MAX_FETCH_DEFAULT end)
      ids_list default_alert_state_list severity_list default_region_ids
      default_cluster_ids st2 =
      (inr request_params,
       State (5 + next_oid st2) (clock_reads st) (last_run_store st) (trace st)) ∧
    get_ransomware_alerts_command h parse argToList_items client args st =
      (resp ← (alerts_api client request_params ≫= λ resp, filter_ransomware_alerts resp []);
       ransomware_alerts ← parse_alert_details h resp [];
       mret (MkCommandResults "CohesityHelios.RansomwareAlert" "alert_id" ransomware_alerts),
       State (5 + next_oid st2) (clock_reads st) (last_run_store st)
         (trace st ++ [Http (GET "/mcm/alerts" request_params)])).
Proof.
  unfold get_ransomware_alerts_command. cbv zeta.
  destruct (argToList_run argToList_items (args !! "alert_severity_list") st)
    as (severity_list & st1 & Hsev & Hsev_items & Hsev_live & Hle1 & Hc1 & Hs1 & Ht1).
  destruct (argToList_run argToList_items (args !! "alert_id_list") st1)
    as (ids_list & st2 & Hids & Hids_items & Hids_live & Hle2 & Hc2 & Hs2 & Ht2).
  rewrite bind_run, Hsev, bind_run, Hids.
  edestruct (get_ransomware_alerts_run client) as (request_params & Hprep & Hrun).
  rewrite bind_run, Hrun.
  exists severity_list, ids_list, st2, request_params.
  rewrite Hc2, Hc1, Hs2, Hs1, Ht2, Ht1 in *.
  repeat split; try done; try lia.
  destruct (alerts_api client request_params ≫= _) as [e|resp]; [done|].
  rewrite lift_bind_run. cbn [mbind result_bind].
  by destruct (parse_alert_details h resp []).
Qed.

(** X17: [get_ransomware_alerts_command] only reads: it sends one GET
    request and nothing else and leaves the watermark alone; the time
    bounds of the request are the parsed dates in microseconds, the bound
    on the number of alerts is the argument [limit] as given, or 20; and
    it returns exactly when the service answers and every ransomware
    alert of the answer has details, which it lists one per alert, in
    order, under the key [alert_id]. *)
Theorem get_ransomware_alerts_command_lists_details (h : host)
    (parse : string → option datetime) (argToList_items : string → list string)
    (client : Client) (args : gmap string string) (st : state) :
  let run := get_ransomware_alerts_command h parse argToList_items client args st in
  ∃ request_params : gmap string param,
    trace run.2 = trace st ++ [Http (GET "/mcm/alerts" request_params)] ∧
    last_run_store run.2 = last_run_store st ∧
    request_params !! "startDateUsecs" =
      (λ t, PInt (t * 1000))
        <$> datestring_to_millis h parse (default "" (args !! "created_after")) ∧
    request_params !! "endDateUsecs" =
      (λ t, PInt (t * 1000))
        <$> datestring_to_millis h parse (default "" (args !! "created_before")) ∧
    request_params !! "maxAlerts" =
      Some (match args !! "limit" with Some s => PStr s | None => PInt 20 end) ∧
    ∀ results,
      run.1 = inr results ↔
      ∃ ransomware_resp,
        (alerts_api client request_params ≫= λ resp, filter_ransomware_alerts resp [])
          = inr ransomware_resp ∧
        Forall2 (λ a details, get_ransomware_alert_details h a = inr details)
          ransomware_resp (outputs results) ∧
        outputs_prefix results = "CohesityHelios.RansomwareAlert" ∧
        outputs_key_field results = "alert_id".
Proof.
  intros run. subst run.
  destruct (get_ransomware_alerts_command_run h parse argToList_items client args st)
    as (severity_list & ids_list & st2 & request_params & _ & _ & _ & _ & _ & Hprep & ->).
  edestruct (prepare_request_params_run
               (datestring_to_millis h parse (default "" (args !! "created_after"))))
    as (rp' & Hprep' & Hs & He & Hmax & _).
  rewrite Hprep in Hprep'. injection Hprep' as <-.
  exists request_params. cbn [fst snd trace last_run_store].
  repeat split; try done.
  - destruct (alerts_api client request_params ≫= _) as [e|resp];
      cbn [mbind result_bind]; [done|].
    destruct (parse_alert_details h resp []) as [e|ransomware_alerts] eqn:Hparse;
      cbn [mbind result_bind]; [done|].
    intros [= <-]. exists resp. split; [done|]. cbn.
    apply parse_alert_details_acc in Hparse as (new & -> & Hnew). done.
  - intros (ransomware_resp & -> & Hdetails & Hprefix & Hkey). cbn [mbind result_bind].
    assert (Hparse : parse_alert_details h ransomware_resp [] = inr (outputs results))
      by (apply parse_alert_details_acc; by exists (outputs results)).
    rewrite Hparse. cbn [mbind result_bind mret result_ret].
    destruct results; cbn in *. by subst.
Qed.

(** X18: [get_ransomware_alerts_command] has no argument for the alert
    state, and its request does not keep the initial restriction to open
    alerts: the list filters of the request are new lists with the items
    of the arguments [alert_id_list] and [alert_severity_list] (empty
    without the argument), and [alertStateList] is the empty default
    list. *)
Theorem get_ransomware_alerts_command_filters (h : host)
    (parse : string → option datetime) (argToList_items : string → list string)
    (client : Client) (args : gmap string string) (st : state) :
  (MODULE_OBJECTS ≤ next_oid st)%nat →
  let run := get_ransomware_alerts_command h parse argToList_items client args st in
  ∃ (request_params : gmap string param) (ids_list severity_list : pylist),
    trace run.2 = trace st ++ [Http (GET "/mcm/alerts" request_params)] ∧
    request_params !! "alertIdList" = Some (PList ids_list) ∧
    items ids_list = from_option argToList_items [] (args !! "alert_id_list") ∧
    request_params !! "alertSeverityList" = Some (PList severity_list) ∧
    items severity_list = from_option argToList_items [] (args !! "alert_severity_list") ∧
    request_params !! "alertStateList" = Some (PList default_alert_state_list) ∧
    items default_alert_state_list = [].
Proof.
  intros Hlive run. subst run.
  destruct (get_ransomware_alerts_command_run h parse argToList_items client args st)
    as (severity_list & ids_list & st2 & request_params
        & Hsev & Hids & Hsev_live & Hids_live & Hle & Hprep & ->).
  edestruct (prepare_request_params_run
               (datestring_to_millis h parse (default "" (args !! "created_after"))))
    as (rp' & Hprep' & _ & _ & _ & Hkeys).
  rewrite Hprep in Hprep'. injection Hprep' as <-.
  unfold MODULE_OBJECTS in Hlive.
  destruct Hkeys as (K1 & K2 & K3 & _); try done; try (cbn; lia).
  by exists request_params, ids_list, severity_list.
Qed.

(** ** The connectivity test and the entry point *)

Lemma prefix_app (needle hay : string) :
  String.prefix needle hay = true ↔ ∃ after, hay = needle +:+ after.
Proof.
  revert hay. induction needle as [|c needle IH]; intros hay.
  - split; [intros _; exists hay; reflexivity | by destruct hay].
  - destruct hay as [|c' hay]; [split; [done | by intros [? ?]]|].
    cbn [String.prefix]. destruct (Ascii.ascii_dec c c') as [->|Hne].
    + rewrite IH. split; intros [after Hafter]; exists after.
      * by rewrite Hafter.
      * by injection Hafter.
    + split; [done | intros [after [= ? _]]; done].
Qed.

Lemma contains_infix (needle hay : string) :
  contains needle hay = true ↔ ∃ before after, hay = before +:+ needle +:+ after.
Proof.
  induction hay as [|c hay IH]; cbn [contains].
  - rewrite bool_decide_eq_true. split.
    + intros ->. by exists "", "".
    + intros (before & after & Heq). destruct before; [|done].
      by destruct needle.
  - rewrite orb_true_iff, IH, prefix_app. split.
    + intros [[after ->] | (before & after & ->)].
      * by exists "", after.
      * by exists (String c before), after.
    + intros (before & after & Heq). destruct before as [|c' before].
      * left. by exists after.
      * right. injection Heq as -> ->. by exists before, after.
Qed.

(** X19: [test_module] sends one GET request, for the alerts since
    1631471400000 ms without an end, and nothing else. It answers ok when
    the fetch returns; it answers with the authorization message when the
    fetch raises a [DemistoException] whose text contains Forbidden or
    Authorization; every other exception is passed on. *)
Theorem test_module_classifies_failures (client : Client) (st : state) :
  let run := test_module client st in
  ∃ request_params : gmap string param,
    trace run.2 = trace st ++ [Http (GET "/mcm/alerts" request_params)] ∧
    last_run_store run.2 = last_run_store st ∧
    request_params !! "startDateUsecs" = Some (PInt 1631471400000000) ∧
    request_params !! "endDateUsecs" = None ∧
    match alerts_api client request_params ≫= λ resp, filter_ransomware_alerts resp [] with
    | inr _ => run.1 = inr "ok"
    | inl (DemistoException msg) =>
        ((∃ before after, msg = before +:+ "Forbidden" +:+ after) ∨
         (∃ before after, msg = before +:+ "Authorization" +:+ after) →
         run.1 = inr "Authorization Error: make sure API Key is correctly set") ∧
        (¬ ((∃ before after, msg = before +:+ "Forbidden" +:+ after) ∨
            (∃ before after, msg = before +:+ "Authorization" +:+ after)) →
         run.1 = inl (DemistoException msg))
    | inl e => run.1 = inl e
    end.
Proof.
  intros run. subst run.
  edestruct (prepare_request_params_run (Some 1631471400000) None)
    as (request_params & Hprep & Hs & He & _).
  edestruct (get_ransomware_alerts_run client (Some 1631471400000) None)
    as (rp' & Hprep' & Hrun).
  rewrite Hprep in Hprep'. injection Hprep' as <-.
  exists request_params.
  unfold test_module, try_except. rewrite bind_run, Hrun.
  destruct (alerts_api client request_params ≫= _) as [e|resp]; [|done].
  destruct e as [k|msg|msg|msg]; try done.
  assert (Hin : contains "Forbidden" msg || contains "Authorization" msg = true ↔
                (∃ before after, msg = before +:+ "Forbidden" +:+ after) ∨
                (∃ before after, msg = before +:+ "Authorization" +:+ after))
    by (by rewrite orb_true_iff, !contains_infix).
  destruct (contains "Forbidden" msg || contains "Authorization" msg).
  - repeat split; try done. intros Hnot. destruct Hnot. by apply Hin.
  - repeat split; try done. intros Hyes. apply Hin in Hyes. done.
Qed.

(** ** The bound of a polling cycle *)




(** ** The further properties at the sample inputs *)

Lemma ignore_match_without_proper_id_witness :
  let empty_id := sample_client [alert_vm_a; alert_vm_b_empty_id] in
  let no_id := sample_client [alert_vm_a; alert_vm_b_no_id] in
  ignore_ransomware_anomaly_command empty_id args_vm_b initial_state =
    (inl (ValueError
            "CohesityHelios error: no anomalous object found by the given name: vm-b. "),
     (get_ransomware_alerts_default empty_id initial_state).2) ∧
  ∃ msg, ignore_ransomware_anomaly_command no_id args_vm_b initial_state =
           (inl (TypeError msg), (get_ransomware_alerts_default no_id initial_state).2).
Proof.
  intros empty_id no_id. split.
  - set (st1 := (get_ransomware_alerts_default empty_id initial_state).2).
    assert (Hget : get_ransomware_alerts_default empty_id initial_state =
                   (inr ([alert_vm_a] ++ alert_vm_b_empty_id :: []), st1))
      by (vm_compute; reflexivity).
    apply (ignore_match_without_proper_id empty_id args_vm_b initial_state st1
             [alert_vm_a] alert_vm_b_empty_id [] Hget).
    + repeat constructor. show_well_formed.
    + repeat constructor.
    + vm_compute; reflexivity.
    + reflexivity.
  - set (st1 := (get_ransomware_alerts_default no_id initial_state).2).
    assert (Hget : get_ransomware_alerts_default no_id initial_state =
                   (inr ([alert_vm_a] ++ alert_vm_b_no_id :: []), st1))
      by (vm_compute; reflexivity).
    apply (ignore_match_without_proper_id no_id args_vm_b initial_state st1
             [alert_vm_a] alert_vm_b_no_id [] Hget).
    + repeat constructor. show_well_formed.
    + repeat constructor.
    + vm_compute; reflexivity.
    + reflexivity.
Defined.

Lemma ignore_without_object_name_suppresses_nothing_witness :
  let client := sample_client [alert_vm_a; alert_bare_warning] in
  ∃ e, ignore_ransomware_anomaly_command client ∅ initial_state =
         (inl e, (get_ransomware_alerts_default client initial_state).2).
Proof.
  intros client.
  set (st1 := (get_ransomware_alerts_default client initial_state).2).
  assert (Hget : get_ransomware_alerts_default client initial_state =
                 (inr [alert_vm_a; alert_bare_warning], st1)) by (vm_compute; reflexivity).
  apply (ignore_without_object_name_suppresses_nothing client ∅ initial_state st1
           [alert_vm_a; alert_bare_warning] Hget).
  - reflexivity.
  - repeat constructor; intros l Hl; vm_compute in Hl; [|discriminate].
    injection Hl as <-. intros Hin.
    repeat (apply elem_of_cons in Hin as [Hin|Hin]; [discriminate|]).
    by apply elem_of_nil in Hin.
Defined.

(** With the requested name [None], an alert whose [object] is null is
    the match: the command suppresses it. *)
Lemma ignore_without_object_name_matches_null_object :
  let client := sample_client [alert_vm_a; alert_null_object] in
  let run := ignore_ransomware_anomaly_command client ∅ initial_state in
  run.1 = inr "Ignored object None." ∧
  last (trace run.2) = Some (Http (suppress_request "7")).
Proof. intros client run. split; vm_compute; reflexivity. Qed.

Lemma restore_payloads_differ_by_time_only_witness :
  let later := State MODULE_OBJECTS 1 ∅ [] in
  ∃ payload_a payload_b,
    (restore_request_payload host_utc restore_dict initial_state).1 = inr payload_a ∧
    (restore_request_payload host_utc restore_dict later).1 = inr payload_b ∧
    payload_a ≠ payload_b ∧
    RestoreRequest.objects payload_a = RestoreRequest.objects payload_b ∧
    RestoreRequest.name payload_a = RestoreRequest.name payload_b.
Proof.
  intros later.
  assert (Ha : ∃ payload st', restore_request_payload host_utc restore_dict initial_state =
                                (inr payload, st'))
    by (eexists _, _; vm_compute; reflexivity).
  assert (Hb : ∃ payload st', restore_request_payload host_utc restore_dict later =
                                (inr payload, st'))
    by (eexists _, _; vm_compute; reflexivity).
  destruct Ha as (payload_a & sta' & Ha). destruct Hb as (payload_b & stb' & Hb).
  exists payload_a, payload_b.
  destruct (restore_payloads_differ_by_time_only host_utc restore_dict initial_state sta'
              later stb' payload_a payload_b Ha Hb) as (Hiff & Hobjects & Hname).
  split; [by rewrite Ha|]. split; [by rewrite Hb|].
  split; [|split; [exact Hobjects | exact Hname]].
  intros Heq. apply Hiff in Heq. vm_compute in Heq. discriminate.
Defined.

Lemma restore_sends_nothing_without_full_request_witness :
  let client := sample_client [alert_bare_warning; alert_vm_b_no_cid] in
  let run := restore_latest_clean_snapshot host_utc client args_vm_b initial_state in
  run.1 = inl (KeyError "cid") ∧
  trace run.2 = trace (get_ransomware_alerts_default client initial_state).2.
Proof.
  intros client run.
  set (st1 := (get_ransomware_alerts_default client initial_state).2).
  assert (Hget : get_ransomware_alerts_default client initial_state =
                 (inr ([alert_bare_warning] ++ alert_vm_b_no_cid :: []), st1))
    by (vm_compute; reflexivity).
  set (property_dict := insert_pairs pairs_no_cid ∅).
  assert (Hd : properties_of alert_vm_b_no_cid = inr property_dict)
    by exact (_get_property_dict_loop_pairs pairs_no_cid ∅).
  assert (Hbuilt : ∃ payload,
            (restore_request_payload host_utc property_dict st1).1 = inr payload)
    by (eexists; vm_compute; reflexivity).
  destruct Hbuilt as (payload & Hbuilt).
  pose proof (restore_sends_nothing_without_full_request host_utc client args_vm_b
                initial_state st1 [alert_bare_warning] alert_vm_b_no_cid [] property_dict
                "6" Hget) as H.
  cbv zeta in H. fold run in H.
  destruct H as (_ & _ & H).
  - repeat constructor. exists "kWarning". split; [reflexivity | discriminate].
  - vm_compute; reflexivity.
  - exact Hd.
  - reflexivity.
  - apply (H ltac:(discriminate) payload Hbuilt). vm_compute; reflexivity.
Defined.

Lemma restore_recovers_then_resolves_witness :
  let client := sample_client [alert_vm_a; alert_vm_b] in
  let run := restore_latest_clean_snapshot host_utc client args_vm_b initial_state in
  run.1 = inr "Restored object vm-b." ∧
  ∃ headers payload,
    trace run.2 = trace (get_ransomware_alerts_default client initial_state).2 ++
      [Http (POST "/irisservices/api/v1/public/restore/recover" headers payload);
       Http (resolve_request "2")] ∧
    headers !! "clusterid" = Some (Some "8765") ∧
    headers !! "apikey" = Some (Some "secret").
Proof.
  intros client run.
  set (st1 := (get_ransomware_alerts_default client initial_state).2).
  assert (Hget : get_ransomware_alerts_default client initial_state =
                 (inr ([alert_vm_a] ++ alert_vm_b :: []), st1))
    by (vm_compute; reflexivity).
  set (property_dict := insert_pairs (restore_pairs "vm-b") ∅).
  assert (Hd : properties_of alert_vm_b = inr property_dict)
    by exact (_get_property_dict_loop_pairs (restore_pairs "vm-b") ∅).
  assert (Hbuilt : ∃ payload st2,
            restore_request_payload host_utc property_dict st1 = (inr payload, st2))
    by (eexists _, _; vm_compute; reflexivity).
  destruct Hbuilt as (payload & st2 & Hbuilt).
  pose proof (restore_recovers_then_resolves host_utc client args_vm_b
                initial_state st1 st2 [alert_vm_a] alert_vm_b [] property_dict
                "2" (Some "8765") payload Hget) as H.
  cbv zeta in H. fold run in H.
  destruct H as (Htrace & Hrun & Hcid & Hother & _).
  - repeat constructor. exists "kWarning". split; [reflexivity | discriminate].
  - vm_compute; reflexivity.
  - exact Hd.
  - reflexivity.
  - discriminate.
  - exact Hbuilt.
  - vm_compute; reflexivity.
  - reflexivity.
  - split; [exact Hrun|]. eexists _, payload. split; [exact Htrace|].
    split; [exact Hcid|]. rewrite Hother by discriminate. vm_compute; reflexivity.
Defined.


Lemma get_ransomware_alerts_command_filters_witness :
  let run := get_ransomware_alerts_command host_utc parse_nothing sample_argToList_items
               (sample_client [alert_vm_a]) args_ids initial_state in
  ∃ (request_params : gmap string param) (ids_list severity_list : pylist),
    trace run.2 = [Http (GET "/mcm/alerts" request_params)] ∧
    request_params !! "alertIdList" = Some (PList ids_list) ∧
    items ids_list = ["7"; "8"] ∧
    request_params !! "alertSeverityList" = Some (PList severity_list) ∧
    items severity_list = [] ∧
    request_params !! "alertStateList" = Some (PList default_alert_state_list).
Proof.
  intros run.
  pose proof (get_ransomware_alerts_command_filters host_utc parse_nothing
                sample_argToList_items (sample_client [alert_vm_a]) args_ids initial_state)
    as H.
  cbv zeta in H. fold run in H.
  destruct H as (request_params & ids_list & severity_list
                 & Htrace & Hids & Hids_items & Hsev & Hsev_items & Hstate & _).
  - vm_compute. lia.
  - exists request_params, ids_list, severity_list.
    split; [exact Htrace|]. split; [exact Hids|]. split; [exact Hids_items|].
    split; [exact Hsev|]. split; [exact Hsev_items | exact Hstate].
Defined.
